(** * addons-code-manager: the versions reducer and the Compare page

    A shallow embedding of [src/reducers/versions] (the store, its selectors,
    the [fetchDiff] thunk and the reducer) and of [src/pages/Compare/index.tsx]
    (the [CompareBase] component's life-cycle methods), followed by the
    properties of the version/diff cache and of the fetch life cycle.

    Conventions of the embedding:
    - a JavaScript object used as a dictionary is a [gmap] over its own
      properties; [undefined] is [None]; a value that may also be [null] is
      an [option] whose [None] is [null]; where the code reads such an
      object at a key that may be any string, the read is [Js.get], which
      falls back on the members that every plain object inherits from
      [Object.prototype];
    - a JavaScript number holding an identifier is [Num z] for the integer
      [z], or [NaN] (what [parseInt] returns when no digit is found);
    - a reducer step that raises a [TypeError] returns [Throw];
    - fields of the transport payloads that the code never reads are left
      out of the records. *)

From stdpp Require Import gmap strings pretty list.
From Stdlib Require Import ZArith Ascii String Lia.

Open Scope Z_scope.
Open Scope string_scope.

(** ** JavaScript numbers used as identifiers *)

Module Js.

Inductive number : Type :=
  | Num (z : Z)
  | NaN.

#[global] Instance number_eq_dec : EqDecision number.
Proof. solve_decision. Defined.

Definition number_to_option (n : number) : option Z :=
  match n with Num z => Some z | NaN => None end.

Definition number_of_option (o : option Z) : number :=
  match o with Some z => Num z | None => NaN end.

#[global] Instance number_countable : Countable number.
Proof.
  apply (inj_countable' number_to_option number_of_option).
  intros []; reflexivity.
Defined.

(** [a > b] on numbers: any comparison with [NaN] is false. *)
Definition gt (a b : number) : bool :=
  match a, b with
  | Num x, Num y => bool_decide (x > y)
  | _, _ => false
  end.

(** [String(n)] and the conversion done by a template literal: all the
    digits of the integer (what JavaScript prints below 10^21). *)
Definition to_string (n : number) : string :=
  match n with
  | Num z => pretty z
  | NaN => "NaN"
  end.

(** White space skipped by [parseInt] (the ASCII members of the class). *)
Definition is_white_space (c : ascii) : bool :=
  let n := nat_of_ascii c in
  bool_decide (n = 9%nat) || bool_decide (n = 10%nat) || bool_decide (n = 11%nat)
  || bool_decide (n = 12%nat) || bool_decide (n = 13%nat) || bool_decide (n = 32%nat).

Fixpoint skip_white_space (s : string) : string :=
  match s with
  | String c r => if is_white_space c then skip_white_space r else s
  | EmptyString => s
  end.

Definition digit_value (c : ascii) : option Z :=
  let n := Z.of_nat (nat_of_ascii c) in
  if bool_decide (48 <= n <= 57) then Some (n - 48) else None.

(** The longest prefix of decimal digits, read left to right; [acc] is
    [None] until a first digit has been seen. *)
Fixpoint read_digits (s : string) (acc : option Z) : option Z :=
  match s with
  | String c r =>
      match digit_value c with
      | Some d => read_digits r (Some (10 * default 0 acc + d))
      | None => acc
      end
  | EmptyString => acc
  end.

(** [parseInt(s, 10)]: leading white space, an optional sign, then the
    longest run of digits; [NaN] when there is no digit. The value is the
    integer the digits denote, which is what a JavaScript number holds for
    every integer below 2^53 in absolute value. *)
Definition parseInt (s : string) : number :=
  match skip_white_space s with
  | String "-"%char r => number_of_option (Z.opp <$> read_digits r None)
  | String "+"%char r => number_of_option (read_digits r None)
  | r => number_of_option (read_digits r None)
  end.

(** The largest integer n such that n and n + 1 are both JavaScript
    numbers ([Number.MAX_SAFE_INTEGER]). Up to it in absolute value the
    integers are numbers, [parseInt] is exact on their digits and
    [String] prints all their digits. *)
Definition MAX_SAFE_INTEGER : Z := 2 ^ 53 - 1.

Definition is_safe_integer (z : Z) : Prop := Z.abs z <= MAX_SAFE_INTEGER.

(** The names that a plain object (an object literal, a spread) inherits
    from [Object.prototype]. Each is bound to a function, [__proto__] to
    the prototype object itself; all of them are truthy. *)
Definition Object_prototype_members : list string :=
  ["constructor"; "hasOwnProperty"; "isPrototypeOf"; "propertyIsEnumerable";
   "toLocaleString"; "toString"; "valueOf"; "__proto__";
   "__defineGetter__"; "__defineSetter__"; "__lookupGetter__";
   "__lookupSetter__"].

(** What [object[key]] finds on a plain object: an own property, else the
    inherited member of that name, else [undefined]. *)
Inductive Got (V : Type) : Type :=
  | Own (v : V)
  | Inherited (member : string)
  | Absent.
Arguments Own {V} v.
Arguments Inherited {V} member.
Arguments Absent {V}.

Definition get {V : Type} (object : gmap string V) (key : string) : Got V :=
  match object !! key with
  | Some v => Own v
  | None =>
      if bool_decide (key ∈ Object_prototype_members) then Inherited key
      else Absent
  end.

(** [a || b] where [a] and [b] were read from an object of strings: the
    empty string and [undefined] are the falsy values. *)
Definition or_else (a b : Got string) : Got string :=
  match a with
  | Own s => if bool_decide (s = "") then b else a
  | Inherited _ => a
  | Absent => b
  end.

End Js.

Abbreviation number := Js.number.
Abbreviation Num := Js.Num.
Abbreviation NaN := Js.NaN.
Abbreviation parseInt := Js.parseInt.

(** A step that may raise: [Ok a] is a normal return, [TypeError] is the
    exception raised when a property of [undefined] is read. *)
Inductive Result (A : Type) : Type :=
  | Ok (a : A)
  | TypeError.
Arguments Ok {A} a.
Arguments TypeError {A}.

(** ** Transport types (the payloads of the API) *)

Abbreviation VersionId := number (only parsing).
Abbreviation LocalizedStringMap := (gmap string string) (only parsing).

Inductive VersionEntryType : Type := image | directory | text | binary.

Module ExternalVersionEntry.
Record t : Type := mk {
  depth : Z;
  filename : string;
  mime_category : VersionEntryType;
  mimetype : string;
  modified : string;
  path : string;
  sha256 : string;
  size : option Z
}.
End ExternalVersionEntry.

(** [entries] is the object keyed by node name, listed in the order in
    which [Object.keys] enumerates it. *)
Module PartialExternalVersionFile.
Record t : Type := mk {
  created : string;
  entries : list (string * ExternalVersionEntry.t);
  id : number;
  selected_file : string;
  size : Z
}.
End PartialExternalVersionFile.

Module ExternalVersionAddon.
Record t : Type := mk {
  icon_url : string;
  id : number;
  name : LocalizedStringMap;
  slug : string
}.
End ExternalVersionAddon.

Inductive ChangeType : Type := normal | delete | insert.

#[global] Instance ChangeType_eq_dec : EqDecision ChangeType.
Proof. solve_decision. Defined.

Module ExternalChange.
Record t : Type := mk {
  content : string;
  new_line_number : Z;
  old_line_number : Z;
  type : ChangeType
}.
End ExternalChange.

Module ExternalHunk.
Record t : Type := mk {
  changes : list ExternalChange.t;
  header : string;
  new_lines : Z;
  new_start : Z;
  old_lines : Z;
  old_start : Z
}.
End ExternalHunk.

Module ExternalDiff.
Record t : Type := mk {
  hunks : list ExternalHunk.t;
  mode : string;
  new_ending_new_line : bool;
  old_ending_new_line : bool;
  old_path : string;
  path : string
}.
End ExternalDiff.

(** [PartialExternalVersionFile & { content }] and
    [PartialExternalVersionFile & { diff }]. *)
Module ExternalVersionFileWithContent.
Record t : Type := mk {
  partial : PartialExternalVersionFile.t;
  content : string
}.
End ExternalVersionFileWithContent.

Module ExternalVersionFileWithDiff.
Record t : Type := mk {
  partial : PartialExternalVersionFile.t;
  diff : list ExternalDiff.t
}.
End ExternalVersionFileWithDiff.

(** [PartialExternalVersion & { file }], for either kind of file. *)
Module ExternalVersion.
Record t (F : Type) : Type := mk {
  addon : ExternalVersionAddon.t;
  id : VersionId;
  reviewed : string;
  version : string;
  file : F
}.
Arguments mk {F}.
Arguments addon {F}.
Arguments id {F}.
Arguments reviewed {F}.
Arguments version {F}.
Arguments file {F}.
End ExternalVersion.

Abbreviation ExternalVersionWithContent :=
  (ExternalVersion.t ExternalVersionFileWithContent.t).
Abbreviation ExternalVersionWithDiff :=
  (ExternalVersion.t ExternalVersionFileWithDiff.t).

(** The union [ExternalVersionWithContent | ExternalVersionWithDiff]. *)
Inductive ExternalVersionAny : Type :=
  | WithContent (v : ExternalVersionWithContent)
  | WithDiff (v : ExternalVersionWithDiff).

Inductive Channel : Type := unlisted | listed.

#[global] Instance Channel_eq_dec : EqDecision Channel.
Proof. solve_decision. Defined.

Module VersionsListItem.
Record t : Type := mk {
  channel : Channel;
  id : VersionId;
  version : string
}.
End VersionsListItem.

Abbreviation ExternalVersionsList := (list VersionsListItem.t) (only parsing).
Abbreviation VersionsList := (list VersionsListItem.t) (only parsing).

(** ** Internal types (what the store holds) *)

Module InternalVersionFile.
Record t : Type := mk {
  content : string;
  created : string;
  id : number;
  size : Z
}.
End InternalVersionFile.

Module VersionEntry.
Record t : Type := mk {
  depth : Z;
  filename : string;
  mimeType : string;
  modified : string;
  path : string;
  sha256 : string;
  type : VersionEntryType
}.
End VersionEntry.

(** What the [getVersionFile] selector returns: the stored file joined
    with its entry ([mk]). When the file it found is not a stored one but
    a member inherited from [Object.prototype], the spread of that member
    adds no field and the object has the fields of the entry and the
    version string alone ([ofEntryOnly]). *)
Module VersionFile.
Inductive t : Type :=
  | mk (content : string) (created : string) (filename : string) (id : number)
      (mimeType : string) (sha256 : string) (size : Z) (type : VersionEntryType)
      (version : string)
  | ofEntryOnly (filename : string) (mimeType : string) (sha256 : string)
      (type : VersionEntryType) (version : string).
End VersionFile.

Module VersionAddon.
Record t : Type := mk {
  iconUrl : string;
  id : number;
  name : LocalizedStringMap;
  slug : string
}.
End VersionAddon.

Module Version.
Record t : Type := mk {
  addon : VersionAddon.t;
  entries : list VersionEntry.t;
  id : VersionId;
  reviewed : string;
  selectedPath : string;
  version : string
}.
Definition with_selectedPath (v : t) (p : string) : t :=
  mk (addon v) (entries v) (id v) (reviewed v) p (version v).
End Version.

(** An object stored in [versionInfo]. The reducer builds it in two ways:
    [createInternalVersion] gives every field, and [UPDATE_SELECTED_PATH]
    spreads the previous object (possibly [undefined]) and sets
    [selectedPath]; on a version that is absent the object it leaves has
    that single field. *)
Inductive VersionObject : Type :=
  | Loaded (v : Version.t)
  | SelectedPathOnly (selectedPath : string).

(** The changes, hunks and diffs handed to [react-diff-view]. *)
Module Change.
Record t : Type := mk {
  content : string;
  isDelete : bool;
  isInsert : bool;
  isNormal : bool;
  lineNumber : Z;
  newLineNumber : Z;
  oldLineNumber : Z;
  type : ChangeType
}.
End Change.

Module Hunk.
Record t : Type := mk {
  changes : list Change.t;
  content : string;
  isPlain : bool;
  newLines : Z;
  newStart : Z;
  oldLines : Z;
  oldStart : Z
}.
End Hunk.

(** [type] is the value of [GIT_STATUS_TO_TYPE[diff.mode] ||
    GIT_STATUS_TO_TYPE.M]: a string of the table, or what the table
    inherits under that name. *)
Module DiffInfo.
Record t : Type := mk {
  newRevision : string;
  oldRevision : string;
  hunks : list Hunk.t;
  type : Js.Got string;
  newEndingNewLine : bool;
  oldEndingNewLine : bool;
  newMode : string;
  oldMode : string;
  newPath : string;
  oldPath : string
}.
End DiffInfo.

Module CompareInfo.
Record t : Type := mk {
  diffs : list DiffInfo.t;
  mimeType : string
}.
End CompareInfo.

Abbreviation CompareInfoMap := (gmap string CompareInfo.t).

Module VersionsMap.
Record t : Type := mk {
  listed : VersionsList;
  unlisted : VersionsList
}.
End VersionsMap.

(** The slice of the store owned by this reducer. A value of
    [diffsByPath] is [None] for [null] and [Some m] for a mapping, so that
    a lookup distinguishes absent ([None]), failed ([Some None]) and
    available ([Some (Some m)]). *)
Module VersionsState.
Record t : Type := mk {
  byAddonId : gmap number VersionsMap.t;
  diffsByPath : gmap string (option CompareInfoMap);
  versionInfo : gmap number VersionObject;
  versionFiles : gmap number (gmap string InternalVersionFile.t)
}.
Definition with_byAddonId (s : t) x : t :=
  mk x (diffsByPath s) (versionInfo s) (versionFiles s).
Definition with_diffsByPath (s : t) x : t :=
  mk (byAddonId s) x (versionInfo s) (versionFiles s).
Definition with_versionInfo (s : t) x : t :=
  mk (byAddonId s) (diffsByPath s) x (versionFiles s).
Definition with_versionFiles (s : t) x : t :=
  mk (byAddonId s) (diffsByPath s) (versionInfo s) x.
End VersionsState.

Definition initialState : VersionsState.t :=
  VersionsState.mk ∅ ∅ ∅ ∅.

(** ** Normalization of the payloads *)

Definition createInternalVersionFile
    (file : ExternalVersionFileWithContent.t) : InternalVersionFile.t :=
  let p := ExternalVersionFileWithContent.partial file in
  InternalVersionFile.mk
    (ExternalVersionFileWithContent.content file)
    (PartialExternalVersionFile.created p)
    (PartialExternalVersionFile.id p)
    (PartialExternalVersionFile.size p).

Definition createInternalVersionEntry
    (entry : ExternalVersionEntry.t) : VersionEntry.t :=
  VersionEntry.mk
    (ExternalVersionEntry.depth entry)
    (ExternalVersionEntry.filename entry)
    (ExternalVersionEntry.mimetype entry)
    (ExternalVersionEntry.modified entry)
    (ExternalVersionEntry.path entry)
    (ExternalVersionEntry.sha256 entry)
    (ExternalVersionEntry.mime_category entry).

Definition createInternalVersionAddon
    (addon : ExternalVersionAddon.t) : VersionAddon.t :=
  VersionAddon.mk
    (ExternalVersionAddon.icon_url addon)
    (ExternalVersionAddon.id addon)
    (ExternalVersionAddon.name addon)
    (ExternalVersionAddon.slug addon).

(** The fields shared by both kinds of payload. *)
Definition any_addon (version : ExternalVersionAny) : ExternalVersionAddon.t :=
  match version with
  | WithContent v => ExternalVersion.addon v
  | WithDiff v => ExternalVersion.addon v
  end.

Definition any_id (version : ExternalVersionAny) : VersionId :=
  match version with
  | WithContent v => ExternalVersion.id v
  | WithDiff v => ExternalVersion.id v
  end.

Definition any_reviewed (version : ExternalVersionAny) : string :=
  match version with
  | WithContent v => ExternalVersion.reviewed v
  | WithDiff v => ExternalVersion.reviewed v
  end.

Definition any_version (version : ExternalVersionAny) : string :=
  match version with
  | WithContent v => ExternalVersion.version v
  | WithDiff v => ExternalVersion.version v
  end.

Definition any_file (version : ExternalVersionAny) : PartialExternalVersionFile.t :=
  match version with
  | WithContent v => ExternalVersionFileWithContent.partial (ExternalVersion.file v)
  | WithDiff v => ExternalVersionFileWithDiff.partial (ExternalVersion.file v)
  end.

Definition createInternalVersion (version : ExternalVersionAny) : Version.t :=
  Version.mk
    (createInternalVersionAddon (any_addon version))
    (map (fun kv => createInternalVersionEntry (snd kv))
         (PartialExternalVersionFile.entries (any_file version)))
    (any_id version)
    (any_reviewed version)
    (PartialExternalVersionFile.selected_file (any_file version))
    (any_version version).

(** ** Selectors *)

Definition getVersionFiles (versions : VersionsState.t) (versionId : VersionId)
    : option (gmap string InternalVersionFile.t) :=
  VersionsState.versionFiles versions !! versionId.

Definition getVersionInfo (versions : VersionsState.t) (versionId : VersionId)
    : option VersionObject :=
  VersionsState.versionInfo versions !! versionId.

(** [entries.find((e) => e.path === path)] *)
Definition find_entry (entries : list VersionEntry.t) (path : string)
    : option VersionEntry.t :=
  List.find (fun e => bool_decide (VersionEntry.path e = path)) entries.

(** [getVersionFile]: [Ok None] is the [undefined] it returns when the
    version, the entry or the file is missing; reading [entries] of an
    object that has none raises. The file is read at [path] from the plain
    object of the version's files, so a path that names an inherited
    member finds that member when no file is stored under it. *)
Definition getVersionFile (versions : VersionsState.t) (versionId : VersionId)
    (path : string) : Result (option VersionFile.t) :=
  match getVersionInfo versions versionId, getVersionFiles versions versionId with
  | Some version, Some filesForVersion =>
      let file := Js.get filesForVersion path in
      match version with
      | SelectedPathOnly _ => TypeError
      | Loaded v =>
          match find_entry (Version.entries v) path with
          | None => Ok None
          | Some entry =>
              match file with
              | Js.Own f =>
                  Ok (Some (VersionFile.mk
                    (InternalVersionFile.content f)
                    (InternalVersionFile.created f)
                    (VersionEntry.filename entry)
                    (InternalVersionFile.id f)
                    (VersionEntry.mimeType entry)
                    (VersionEntry.sha256 entry)
                    (InternalVersionFile.size f)
                    (VersionEntry.type entry)
                    (Version.version v)))
              | Js.Inherited _ =>
                  Ok (Some (VersionFile.ofEntryOnly
                    (VersionEntry.filename entry)
                    (VersionEntry.mimeType entry)
                    (VersionEntry.sha256 entry)
                    (VersionEntry.type entry)
                    (Version.version v)))
              | Js.Absent => Ok None
              end
          end
      end
  | _, _ => Ok None
  end.

Definition createVersionsMap (versions : ExternalVersionsList) : VersionsMap.t :=
  VersionsMap.mk
    (filter (fun version => VersionsListItem.channel version = listed) versions)
    (filter (fun version => VersionsListItem.channel version = unlisted) versions).

(** ** Diffs in the shape of [react-diff-view] *)

(** The table of [createInternalDiffs], by its own properties. *)
Definition GIT_STATUS_TO_TYPE : gmap string string :=
  list_to_map
    [("A", "add"); ("C", "copy"); ("D", "delete"); ("M", "modify");
     ("R", "rename")].

Definition createInternalChange (change : ExternalChange.t) : Change.t :=
  Change.mk
    (ExternalChange.content change)
    (bool_decide (ExternalChange.type change = delete))
    (bool_decide (ExternalChange.type change = insert))
    (bool_decide (ExternalChange.type change = normal))
    (if bool_decide (ExternalChange.type change = insert)
     then ExternalChange.new_line_number change
     else ExternalChange.old_line_number change)
    (ExternalChange.new_line_number change)
    (ExternalChange.old_line_number change)
    (ExternalChange.type change).

Definition createInternalHunk (hunk : ExternalHunk.t) : Hunk.t :=
  Hunk.mk
    (map createInternalChange (ExternalHunk.changes hunk))
    (ExternalHunk.header hunk)
    false
    (ExternalHunk.new_lines hunk)
    (ExternalHunk.new_start hunk)
    (ExternalHunk.old_lines hunk)
    (ExternalHunk.old_start hunk).

Definition gitStatusToType (mode : string) : Js.Got string :=
  Js.or_else (Js.get GIT_STATUS_TO_TYPE mode) (Js.get GIT_STATUS_TO_TYPE "M").

Definition createInternalDiff (baseVersionId headVersionId : number)
    (diff : ExternalDiff.t) : DiffInfo.t :=
  DiffInfo.mk
    (Js.to_string headVersionId)
    (Js.to_string baseVersionId)
    (map createInternalHunk (ExternalDiff.hunks diff))
    (gitStatusToType (ExternalDiff.mode diff))
    (ExternalDiff.new_ending_new_line diff)
    (ExternalDiff.old_ending_new_line diff)
    (ExternalDiff.mode diff)
    (ExternalDiff.mode diff)
    (ExternalDiff.path diff)
    (ExternalDiff.old_path diff).

Definition createInternalDiffs (baseVersionId headVersionId : number)
    (version : ExternalVersionWithDiff) : list DiffInfo.t :=
  map (createInternalDiff baseVersionId headVersionId)
      (ExternalVersionFileWithDiff.diff (ExternalVersion.file version)).

(** ** The diff cache: keys and lookup *)

Definition getDiffsKey (addonId : number) (baseVersionId headVersionId : VersionId)
    : string :=
  Js.to_string addonId +:+ "/" +:+ Js.to_string baseVersionId +:+ "/"
    +:+ Js.to_string headVersionId.

Definition getCompareInfoMap (versionsState : VersionsState.t)
    (addonId baseVersionId headVersionId : number)
    : option (option CompareInfoMap) :=
  let key := getDiffsKey addonId baseVersionId headVersionId in
  VersionsState.diffsByPath versionsState !! key.

(** ** Actions and the reducer *)

Module actions.
Inductive t : Type :=
  | loadVersionFile (path : string) (version : ExternalVersionWithContent)
  | loadVersionInfo (version : ExternalVersionAny)
  | updateSelectedPath (selectedPath : string) (versionId : VersionId)
  | loadVersionsList (addonId : number) (versions : ExternalVersionsList)
  | beginFetchDiff (addonId : number) (baseVersionId headVersionId : VersionId)
  | abortFetchDiff (addonId : number) (baseVersionId headVersionId : VersionId)
  | loadDiff (addonId : number) (baseVersionId headVersionId : VersionId)
      (version : ExternalVersionWithDiff)
  | other.
End actions.

(** [{ ...m }] for [m] a mapping, [null] or [undefined]. *)
Definition spread {K} `{Countable K} {V} (m : option (option (gmap K V)))
    : gmap K V :=
  match m with
  | Some (Some m) => m
  | _ => ∅
  end.

Definition reducer (state : VersionsState.t) (action : actions.t)
    : Result VersionsState.t :=
  match action with
  | actions.loadVersionInfo version =>
      Ok (VersionsState.with_versionInfo state
            (<[any_id version := Loaded (createInternalVersion version)]>
               (VersionsState.versionInfo state)))
  | actions.loadVersionFile path version =>
      let id := ExternalVersion.id version in
      Ok (VersionsState.with_versionFiles state
            (<[id :=
                 <[path := createInternalVersionFile (ExternalVersion.file version)]>
                   (default ∅ (VersionsState.versionFiles state !! id))]>
               (VersionsState.versionFiles state)))
  | actions.updateSelectedPath selectedPath versionId =>
      let updated :=
        match VersionsState.versionInfo state !! versionId with
        | Some (Loaded v) => Loaded (Version.with_selectedPath v selectedPath)
        | Some (SelectedPathOnly _) | None => SelectedPathOnly selectedPath
        end in
      Ok (VersionsState.with_versionInfo state
            (<[versionId := updated]> (VersionsState.versionInfo state)))
  | actions.loadVersionsList addonId versions =>
      Ok (VersionsState.with_byAddonId state
            (<[addonId := createVersionsMap versions]>
               (VersionsState.byAddonId state)))
  | actions.beginFetchDiff addonId baseVersionId headVersionId =>
      let key := getDiffsKey addonId baseVersionId headVersionId in
      Ok (VersionsState.with_diffsByPath state
            (<[key := Some ∅]> (VersionsState.diffsByPath state)))
  | actions.abortFetchDiff addonId baseVersionId headVersionId =>
      let key := getDiffsKey addonId baseVersionId headVersionId in
      Ok (VersionsState.with_diffsByPath state
            (<[key := None]> (VersionsState.diffsByPath state)))
  | actions.loadDiff addonId baseVersionId headVersionId version =>
      let key := getDiffsKey addonId baseVersionId headVersionId in
      match getVersionInfo state headVersionId with
      | None => TypeError
      | Some (SelectedPathOnly _) => TypeError
      | Some (Loaded v) =>
          let entries := Version.entries v in
          let selectedPath := Version.selectedPath v in
          match find_entry entries selectedPath with
          | None => Ok state
          | Some entry =>
              Ok (VersionsState.with_diffsByPath state
                    (<[key :=
                         Some (<[selectedPath :=
                                   CompareInfo.mk
                                     (createInternalDiffs baseVersionId
                                        headVersionId version)
                                     (VersionEntry.mimeType entry)]>
                                 (spread (VersionsState.diffsByPath state !! key)))]>
                       (VersionsState.diffsByPath state)))
          end
      end
  | actions.other => Ok state
  end.

(** ** Thunks

    A thunk runs against the store: it reads and replaces the state through
    [dispatch], calls the API collaborator, and may stop on an exception.
    The events it causes are recorded in order. The API call is the only
    point where the source suspends; a run of the model is one thunk with
    nothing interleaved at that point. The [api] slice of the store, which
    the thunk only passes on to the collaborator, is not part of the
    model. *)

Module GetDiffParams.
Record t : Type := mk {
  addonId : number;
  baseVersionId : number;
  headVersionId : number;
  path : option string
}.
End GetDiffParams.

(** What the API collaborator resolves to; [isErrorResponse] tells the two
    apart. *)
Inductive DiffResponse : Type :=
  | ErrorResponse (error : string)
  | VersionResponse (version : ExternalVersionWithDiff).

Inductive Event : Type :=
  | Dispatched (action : actions.t)
  | GetDiffCalled (params : GetDiffParams.t)
  | LoggedError (message : string)
  | HistoryPushed (url : string).

Definition Thunk (A : Type) : Type :=
  VersionsState.t -> list Event * Result (A * VersionsState.t).

Definition ret {A} (a : A) : Thunk A :=
  fun s => ([], Ok (a, s)).

Definition bind {A B} (m : Thunk A) (k : A -> Thunk B) : Thunk B :=
  fun s =>
    match m s with
    | (tr, Ok (a, s')) => let '(tr', r) := k a s' in ((tr ++ tr')%list, r)
    | (tr, TypeError) => (tr, TypeError)
    end.

Declare Scope thunk_scope.
Delimit Scope thunk_scope with thunk.
Notation "x <- m ;; k" := (bind m (fun x => k))
  (at level 100, m at next level, right associativity) : thunk_scope.
Notation "m ;;; k" := (bind m (fun _ => k))
  (at level 100, right associativity) : thunk_scope.

(** [dispatch(action)] for a plain action: the store applies the reducer. *)
Definition dispatch (action : actions.t) : Thunk unit :=
  fun s =>
    match reducer s action with
    | Ok s' => ([Dispatched action], Ok (tt, s'))
    | TypeError => ([Dispatched action], TypeError)
    end.

Definition emit (e : Event) : Thunk unit :=
  fun s => ([e], Ok (tt, s)).

Definition trace {A} (r : list Event * Result (A * VersionsState.t)) : list Event :=
  fst r.

Definition final_state {A} (r : list Event * Result (A * VersionsState.t))
    : Result VersionsState.t :=
  match snd r with
  | Ok (_, s) => Ok s
  | TypeError => TypeError
  end.

Module FetchDiffParams.
Record t : Type := mk {
  addonId : number;
  baseVersionId : number;
  headVersionId : number;
  path : option string
}.
End FetchDiffParams.

Section FetchDiff.

(** The API collaborator [getDiff] of [../api] (injected as [_getDiff]). *)
Variable _getDiff : GetDiffParams.t -> DiffResponse.

Definition call_getDiff (params : GetDiffParams.t) : Thunk DiffResponse :=
  fun s => ([GetDiffCalled params], Ok (_getDiff params, s)).

Definition fetchDiff (p : FetchDiffParams.t) : Thunk unit :=
  let addonId := FetchDiffParams.addonId p in
  let baseVersionId := FetchDiffParams.baseVersionId p in
  let headVersionId := FetchDiffParams.headVersionId p in
  let path := FetchDiffParams.path p in
  (dispatch (actions.beginFetchDiff addonId baseVersionId headVersionId) ;;;
   response <- call_getDiff
                 (GetDiffParams.mk addonId baseVersionId (Num 123) path) ;;
   match response with
   | ErrorResponse error =>
       emit (LoggedError ("TODO: handle this error response: " +:+ error)) ;;;
       dispatch (actions.abortFetchDiff addonId baseVersionId headVersionId)
   | VersionResponse version =>
       dispatch (actions.loadVersionInfo (WithDiff version)) ;;;
       dispatch (actions.loadDiff addonId baseVersionId headVersionId version)
   end)%thunk.

End FetchDiff.

(** ** The Compare page ([CompareBase])

    The life-cycle methods are modelled by the commands they issue, in
    order: a [history.push] or a [dispatch]. What [dispatch] receives is
    either a plain action or the thunk made by the injected [_fetchDiff],
    whose default is [fetchDiff]. *)

Module RouteParams.
Record t : Type := mk {
  addonId : string;
  baseVersionId : string;
  headVersionId : string;
  lang : string
}.
End RouteParams.

(** [match.params] and the props computed by [mapStateToProps]. *)
Module Props.
Record t : Type := mk {
  params : RouteParams.t;
  addonId : number;
  compareInfoMap : option (option CompareInfoMap);
  version : option VersionObject
}.
End Props.

Inductive Dispatchable : Type :=
  | PlainAction (action : actions.t)
  | FetchDiffThunk (p : FetchDiffParams.t).

Inductive Command : Type :=
  | history_push (url : string)
  | store_dispatch (d : Dispatchable).

Definition mapStateToProps (versions : VersionsState.t) (params : RouteParams.t)
    : Props.t :=
  let addonId := parseInt (RouteParams.addonId params) in
  let baseVersionId := parseInt (RouteParams.baseVersionId params) in
  let headVersionId := parseInt (RouteParams.headVersionId params) in
  let version := getVersionInfo versions headVersionId in
  let compareInfoMap :=
    getCompareInfoMap versions addonId baseVersionId headVersionId in
  Props.mk params addonId compareInfoMap version.

Definition loadData (props : Props.t) (prevProps : option Props.t)
    : list Command :=
  let params := Props.params props in
  let addonId := RouteParams.addonId params in
  let baseVersionId := RouteParams.baseVersionId params in
  let headVersionId := RouteParams.headVersionId params in
  let changed :=
    match prevProps with
    | None => true
    | Some prev =>
        let prevParams := Props.params prev in
        bool_decide (addonId <> RouteParams.addonId prevParams)
        || bool_decide (baseVersionId <> RouteParams.baseVersionId prevParams)
        || bool_decide (headVersionId <> RouteParams.headVersionId prevParams)
    end in
  if changed then
    [store_dispatch
       (FetchDiffThunk
          (FetchDiffParams.mk (parseInt addonId) (parseInt baseVersionId)
             (parseInt headVersionId) None))]
  else [].

Definition compareUrl (lang addonId headVersionId baseVersionId : string)
    : string :=
  "/" +:+ lang +:+ "/compare/" +:+ addonId +:+ "/versions/" +:+ headVersionId
    +:+ "..." +:+ baseVersionId +:+ "/".

Definition componentDidMount (props : Props.t) : list Command :=
  let params := Props.params props in
  let lang := RouteParams.lang params in
  let addonId := RouteParams.addonId params in
  let baseVersionId := RouteParams.baseVersionId params in
  let headVersionId := RouteParams.headVersionId params in
  let oldVersionId := parseInt baseVersionId in
  let newVersionId := parseInt headVersionId in
  if Js.gt oldVersionId newVersionId then
    [history_push (compareUrl lang addonId headVersionId baseVersionId)]
  else loadData props None.

Definition componentDidUpdate (props prevProps : Props.t) : list Command :=
  loadData props (Some prevProps).

(** [!compareInfoMap || !compareInfoMap[path]]: the mapping is a plain
    object, and both an entry and an inherited member are truthy. *)
Definition lacks_path (compareInfoMap : option (option CompareInfoMap))
    (path : string) : bool :=
  match compareInfoMap with
  | Some (Some m) =>
      match Js.get m path with
      | Js.Own _ | Js.Inherited _ => false
      | Js.Absent => true
      end
  | Some None | None => true
  end.

Definition onSelectFile (props : Props.t) (path : string) : list Command :=
  let params := Props.params props in
  let addonId := RouteParams.addonId params in
  let baseVersionId := RouteParams.baseVersionId params in
  let headVersionId := RouteParams.headVersionId params in
  store_dispatch
    (PlainAction (actions.updateSelectedPath path (parseInt headVersionId)))
  :: (if lacks_path (Props.compareInfoMap props) path then
        [store_dispatch
           (FetchDiffThunk
              (FetchDiffParams.mk (parseInt addonId) (parseInt baseVersionId)
                 (parseInt headVersionId) (Some path)))]
      else []).

(** Running the commands against the store, with [_fetchDiff] at its
    default. *)
Section Run.

Variable _getDiff : GetDiffParams.t -> DiffResponse.

Definition run_dispatchable (d : Dispatchable) : Thunk unit :=
  match d with
  | PlainAction action => dispatch action
  | FetchDiffThunk p => fetchDiff _getDiff p
  end.

Fixpoint run_commands (cmds : list Command) : Thunk unit :=
  match cmds with
  | [] => ret tt
  | history_push url :: rest =>
      (emit (HistoryPushed url) ;;; run_commands rest)%thunk
  | store_dispatch d :: rest =>
      (run_dispatchable d ;;; run_commands rest)%thunk
  end.

(** The page as connected to the store: props are computed from the
    current state, then the life-cycle method runs. *)
Definition mount (params : RouteParams.t) : Thunk unit :=
  fun s => run_commands (componentDidMount (mapStateToProps s params)) s.

Definition update (params prevParams : RouteParams.t) : Thunk unit :=
  fun s =>
    run_commands
      (componentDidUpdate (mapStateToProps s params)
         (mapStateToProps s prevParams)) s.

Definition selectFile (params : RouteParams.t) (path : string) : Thunk unit :=
  fun s => run_commands (onSelectFile (mapStateToProps s params) path) s.

End Run.

(** ** What the Compare page renders

    [render] is modelled by the elements it returns: the loading message
    alone while no version object is in the props, and otherwise the file
    tree, the version chooser, the error paragraph when it is there, and
    the diff pane. *)

(** The diff pane: the diff view of an entry, the diff view whose [diffs]
    and [mimeType] are both [undefined] (what the code passes on when the
    object it found is an inherited member), or the loading message. *)
Inductive DiffPane : Type :=
  | DiffView (diffs : list DiffInfo.t) (mimeType : string)
  | DiffViewOfUndefined
  | LoadingDiff.

Inductive Rendered : Type :=
  | LoadingVersion
  | ComparePage (fileTreeVersion : VersionObject) (versionChooserAddonId : number)
      (errorShown : bool) (pane : DiffPane).

(** [version.selectedPath], which both kinds of stored object have. *)
Definition objectSelectedPath (version : VersionObject) : string :=
  match version with
  | Loaded v => Version.selectedPath v
  | SelectedPathOnly selectedPath => selectedPath
  end.

Definition render (props : Props.t) : Rendered :=
  match Props.version props with
  | None => LoadingVersion
  | Some version =>
      let fetchDiffHasFailed :=
        match Props.compareInfoMap props with
        | Some None => true
        | Some (Some _) | None => false
        end in
      let compareInfo :=
        match Props.compareInfoMap props with
        | Some (Some m) => Js.get m (objectSelectedPath version)
        | Some None | None => Js.Absent
        end in
      ComparePage version (Props.addonId props) fetchDiffHasFailed
        match compareInfo with
        | Js.Own info =>
            DiffView (CompareInfo.diffs info) (CompareInfo.mimeType info)
        | Js.Inherited _ => DiffViewOfUndefined
        | Js.Absent => LoadingDiff
        end
  end.

(** ** The thunks that fetch versions, files and version lists

    These thunks call two more collaborators of [../api], so their runs
    record the calls next to the events of the store. *)

Module GetVersionParams.
Record t : Type := mk {
  addonId : number;
  versionId : number;
  path : option string
}.
End GetVersionParams.

Inductive ContentResponse : Type :=
  | ContentError (error : string)
  | ContentVersion (version : ExternalVersionWithContent).

Inductive VersionsListResponse : Type :=
  | ListError (error : string)
  | ListVersions (versions : ExternalVersionsList).

Inductive ApiEvent : Type :=
  | StoreEvent (e : Event)
  | GetVersionCalled (params : GetVersionParams.t)
  | GetVersionsListCalled (addonId : number).

Definition ApiThunk (A : Type) : Type :=
  VersionsState.t -> list ApiEvent * Result (A * VersionsState.t).

Definition api_bind {A B} (m : ApiThunk A) (k : A -> ApiThunk B) : ApiThunk B :=
  fun s =>
    match m s with
    | (tr, Ok (a, s')) => let '(tr', r) := k a s' in ((tr ++ tr')%list, r)
    | (tr, TypeError) => (tr, TypeError)
    end.

(** A thunk of the store run among the calls of the API. *)
Definition lift {A} (m : Thunk A) : ApiThunk A :=
  fun s => let '(tr, r) := m s in (map StoreEvent tr, r).

Declare Scope api_scope.
Delimit Scope api_scope with api.
Notation "x <- m ;; k" := (api_bind m (fun x => k))
  (at level 100, m at next level, right associativity) : api_scope.
Notation "m ;;; k" := (api_bind m (fun _ => k))
  (at level 100, right associativity) : api_scope.

Module FetchVersionParams.
Record t : Type := mk {
  addonId : number;
  versionId : number
}.
End FetchVersionParams.

Module FetchVersionFileParams.
Record t : Type := mk {
  addonId : number;
  path : string;
  versionId : number
}.
End FetchVersionFileParams.

Section FetchVersion.

(** The collaborators [getVersion] and [getVersionsList] of [../api]
    (injected as [_getVersion] and [_getVersionsList]). *)
Variable _getVersion : GetVersionParams.t -> ContentResponse.
Variable _getVersionsList : number -> VersionsListResponse.

Definition call_getVersion (params : GetVersionParams.t) : ApiThunk ContentResponse :=
  fun s => ([GetVersionCalled params], Ok (_getVersion params, s)).

Definition call_getVersionsList (addonId : number) : ApiThunk VersionsListResponse :=
  fun s => ([GetVersionsListCalled addonId], Ok (_getVersionsList addonId, s)).

Definition fetchVersion (p : FetchVersionParams.t) : ApiThunk unit :=
  let addonId := FetchVersionParams.addonId p in
  let versionId := FetchVersionParams.versionId p in
  (response <- call_getVersion (GetVersionParams.mk addonId versionId None) ;;
   match response with
   | ContentError error =>
       lift (emit (LoggedError ("TODO: handle this error response: " +:+ error)))
   | ContentVersion response =>
       lift (dispatch (actions.loadVersionInfo (WithContent response))) ;;;
       lift (dispatch
               (actions.loadVersionFile
                  (PartialExternalVersionFile.selected_file
                     (ExternalVersionFileWithContent.partial
                        (ExternalVersion.file response)))
                  response))
   end)%api.

Definition fetchVersionFile (p : FetchVersionFileParams.t) : ApiThunk unit :=
  let addonId := FetchVersionFileParams.addonId p in
  let path := FetchVersionFileParams.path p in
  let versionId := FetchVersionFileParams.versionId p in
  (lift (dispatch (actions.updateSelectedPath path versionId)) ;;;
   response <- call_getVersion (GetVersionParams.mk addonId versionId (Some path)) ;;
   match response with
   | ContentError error =>
       lift (emit (LoggedError ("TODO: handle this error response: " +:+ error)))
   | ContentVersion response =>
       lift (dispatch (actions.loadVersionFile path response))
   end)%api.

Definition fetchVersionsList (addonId : number) : ApiThunk unit :=
  (response <- call_getVersionsList addonId ;;
   match response with
   | ListError error =>
       lift (emit (LoggedError ("TODO: handle this error response: " +:+ error)))
   | ListVersions response =>
       lift (dispatch (actions.loadVersionsList addonId response))
   end)%api.

End FetchVersion.

(** ** Definitions used by the statements *)

(** The reading of the displayed line number that takes the new line
    number for inserted and for normal lines. *)
Definition lineNumber_newForInsertOrNormal (c : ExternalChange.t) : Z :=
  match ExternalChange.type c with
  | insert | normal => ExternalChange.new_line_number c
  | delete => ExternalChange.old_line_number c
  end.

(** The cache key an action writes to, if it writes to the cache. *)
Definition diffsKeyOf (action : actions.t) : option string :=
  match action with
  | actions.beginFetchDiff a b h
  | actions.abortFetchDiff a b h
  | actions.loadDiff a b h _ => Some (getDiffsKey a b h)
  | _ => None
  end.

(** The comparison (add-on, base and head ids) whose cache entry an action
    writes, if it writes one. *)
Definition comparisonOf (action : actions.t) : option (number * number * number) :=
  match action with
  | actions.beginFetchDiff a b h
  | actions.abortFetchDiff a b h
  | actions.loadDiff a b h _ => Some (a, b, h)
  | _ => None
  end.

(** A sequence of actions applied in order, stopping at the first raise. *)
Fixpoint reduce_all (s : VersionsState.t) (l : list actions.t)
    : Result VersionsState.t :=
  match l with
  | [] => Ok s
  | action :: rest =>
      match reducer s action with
      | Ok s' => reduce_all s' rest
      | TypeError => TypeError
      end
  end.

(** The states a run of [fetchDiff] goes through, as the reducer computes
    them. *)
Definition afterBegin (s : VersionsState.t) (a b h : number) : VersionsState.t :=
  VersionsState.with_diffsByPath s
    (<[getDiffsKey a b h := Some ∅]> (VersionsState.diffsByPath s)).

Definition afterAbort (s : VersionsState.t) (a b h : number) : VersionsState.t :=
  VersionsState.with_diffsByPath s
    (<[getDiffsKey a b h := None]> (VersionsState.diffsByPath s)).

Definition afterVersionInfo (s : VersionsState.t) (version : ExternalVersionWithDiff)
    : VersionsState.t :=
  VersionsState.with_versionInfo s
    (<[ExternalVersion.id version := Loaded (createInternalVersion (WithDiff version))]>
       (VersionsState.versionInfo s)).

Definition afterSelectedPath (s : VersionsState.t) (selectedPath : string)
    (versionId : VersionId) : VersionsState.t :=
  VersionsState.with_versionInfo s
    (<[versionId :=
         match VersionsState.versionInfo s !! versionId with
         | Some (Loaded v) => Loaded (Version.with_selectedPath v selectedPath)
         | Some (SelectedPathOnly _) | None => SelectedPathOnly selectedPath
         end]>
       (VersionsState.versionInfo s)).

(** The commands hold no dispatch of a fetch thunk. *)
Definition dispatches_no_fetch (cmds : list Command) : Prop :=
  forall p : FetchDiffParams.t, store_dispatch (FetchDiffThunk p) ∉ cmds.

(** The events hold neither a begin action nor a call of the API. *)
Definition no_begin_no_call (tr : list Event) : Prop :=
  forall e : Event,
    e ∈ tr ->
    match e with
    | Dispatched (actions.beginFetchDiff _ _ _) | GetDiffCalled _ => False
    | _ => True
    end.

(** The reading of the scoped fetch under which it leaves the cache of the
    comparison alone: no begin action in the run, and every diff cached for
    another path still there when the run has ended. *)
Definition scoped_fetch_keeps_cache (_getDiff : GetDiffParams.t -> DiffResponse)
    (params : RouteParams.t) (path : string) (s : VersionsState.t) : Prop :=
  let a := parseInt (RouteParams.addonId params) in
  let b := parseInt (RouteParams.baseVersionId params) in
  let h := parseInt (RouteParams.headVersionId params) in
  lacks_path (getCompareInfoMap s a b h) path = true ->
  (forall e : Event,
     e ∈ trace (selectFile _getDiff params path s) ->
     e <> Dispatched (actions.beginFetchDiff a b h))
  /\ (forall (s' : VersionsState.t) (q : string) (d : CompareInfo.t),
        final_state (selectFile _getDiff params path s) = Ok s' ->
        q <> path ->
        spread (getCompareInfoMap s a b h) !! q = Some d ->
        spread (getCompareInfoMap s' a b h) !! q = Some d).

(** Every character of the string satisfies the test. *)
Fixpoint all_chars (P : ascii -> bool) (s : string) : bool :=
  match s with
  | EmptyString => true
  | String c r => P c && all_chars P r
  end.

Definition is_digit_or_dash (c : ascii) : bool :=
  match Js.digit_value c with
  | Some _ => true
  | None => bool_decide (c = "-"%char)
  end.

Definition not_slash (c : ascii) : bool := negb (bool_decide (c = "/"%char)).

Definition is_digit (c : ascii) : bool :=
  match Js.digit_value c with
  | Some _ => true
  | None => false
  end.

(** ** Sample payloads and stores used by the concrete checks *)

Module Sample.

Definition entry (path : string) : ExternalVersionEntry.t :=
  ExternalVersionEntry.mk 0 path text "application/json"
    "2017-08-15T12:01:13Z" path "some-sha" (Some 123).

Definition addon : ExternalVersionAddon.t :=
  ExternalVersionAddon.mk "icon.png" (Num 111) {["en-US" := "addon name"]}
    "addon-slug".

Definition partialFile (paths : list string) (selected : string)
    : PartialExternalVersionFile.t :=
  PartialExternalVersionFile.mk "2017-08-15T12:01:13Z"
    (map (fun p => (p, entry p)) paths) (Num 789) selected 123.

Definition change (t : ChangeType) (new_line old_line : Z) : ExternalChange.t :=
  ExternalChange.mk "some line" new_line old_line t.

Definition hunk : ExternalHunk.t :=
  ExternalHunk.mk [change insert 5 0; change delete 0 7] "@@ -7 +5 @@" 1 5 1 7.

Definition diff (path : string) : ExternalDiff.t :=
  ExternalDiff.mk [hunk] "M" true true path path.

Definition versionWithDiff (id : Z) (paths : list string) (selected : string)
    : ExternalVersionWithDiff :=
  ExternalVersion.mk addon (Num id) "2019-01-01" "1.0"
    (ExternalVersionFileWithDiff.mk (partialFile paths selected) [diff selected]).

Definition versionWithContent (id : Z) (paths : list string) (selected : string)
    : ExternalVersionWithContent :=
  ExternalVersion.mk addon (Num id) "2019-01-01" "1.0"
    (ExternalVersionFileWithContent.mk (partialFile paths selected) "{}").

(** A store in which version 2 is loaded with [paths], [selected] being the
    selected path, and whose cache for 9999/1/2 is [cache]. *)
Definition store (paths : list string) (selected : string)
    (cache : gmap string (option CompareInfoMap)) : VersionsState.t :=
  VersionsState.mk ∅ cache
    {[ Num 2 :=
         Loaded (createInternalVersion
                   (WithDiff (versionWithDiff 2 paths selected))) ]}
    ∅.

Definition info (path : string) : CompareInfo.t :=
  CompareInfo.mk
    (createInternalDiffs (Num 1) (Num 2)
       (versionWithDiff 2 [path] path))
    "application/json".

(** Version 2 with the files a.js, b.js and c.js, c.js being selected,
    and a cache for 9999/1/2 that holds a.js and b.js. *)
Definition versionABC : Version.t :=
  createInternalVersion
    (WithDiff (versionWithDiff 2 ["a.js"; "b.js"; "c.js"] "c.js")).

Definition cacheAB : CompareInfoMap :=
  {[ "a.js" := info "a.js"; "b.js" := info "b.js" ]}.

Definition storeABC : VersionsState.t :=
  store ["a.js"; "b.js"; "c.js"] "c.js"
    {[ getDiffsKey (Num 9999) (Num 1) (Num 2) := Some cacheAB ]}.

(** An API that answers every request with version 2, whose only file,
    manifest.json, is selected; and an API that always fails. *)
Definition getDiff_ok (_ : GetDiffParams.t) : DiffResponse :=
  VersionResponse (versionWithDiff 2 ["manifest.json"] "manifest.json").

Definition getDiff_error (_ : GetDiffParams.t) : DiffResponse :=
  ErrorResponse "500".

Definition params_9999_1_2 : RouteParams.t :=
  RouteParams.mk "9999" "1" "2" "fr".

(** The store after the page was mounted on 9999/1/2 over the empty store
    and the API answered. *)
Definition loadedStore : VersionsState.t :=
  match final_state (mount getDiff_ok params_9999_1_2 initialState) with
  | Ok s => s
  | TypeError => initialState
  end.

Definition params_swapped : RouteParams.t :=
  RouteParams.mk "123456" "2" "1" "es".

Definition params_ordered : RouteParams.t :=
  RouteParams.mk "123456" "1" "2" "es".

(** The API answers with version 2 and its three files, c.js selected. *)
Definition getDiff_c (_ : GetDiffParams.t) : DiffResponse :=
  VersionResponse (versionWithDiff 2 ["a.js"; "b.js"; "c.js"] "c.js").

End Sample.

(** ** Sample API collaborators for versions and version lists *)

Module SampleApi.

(** Version 2 with the files a.js, b.js and c.js and the content of the
    selected file. *)
Definition getVersion_ok (params : GetVersionParams.t) : ContentResponse :=
  ContentVersion
    (Sample.versionWithContent 2 ["a.js"; "b.js"; "c.js"]
       (default "c.js" (GetVersionParams.path params))).

Definition getVersion_error (_ : GetVersionParams.t) : ContentResponse :=
  ContentError "404".

Definition item (channel : Channel) (id : Z) : VersionsListItem.t :=
  VersionsListItem.mk channel (Num id) "1.0".

Definition getVersionsList_ok (_ : number) : VersionsListResponse :=
  ListVersions [item listed 3; item unlisted 2; item listed 1].

Definition getVersionsList_error (_ : number) : VersionsListResponse :=
  ListError "500".

(** A diff API that answers every request with version 123. *)
Definition getDiff_123 (_ : GetDiffParams.t) : DiffResponse :=
  VersionResponse (Sample.versionWithDiff 123 ["manifest.json"] "manifest.json").

End SampleApi.

(** * Properties *)

(** ** parseInt and String on identifiers *)

Example parseInt_ex1 : parseInt "9999" = Num 9999.
Proof. reflexivity. Qed.
Example parseInt_ex2 : parseInt "  -12px" = Num (-12).
Proof. reflexivity. Qed.
Example parseInt_ex3 : parseInt "abc" = NaN.
Proof. reflexivity. Qed.
Example to_string_ex : Js.to_string (Num 123456) = "123456".
Proof. reflexivity. Qed.

(** ** Reading plain objects *)

Section JsObjects.

Context {V : Type}.

Lemma get_own (object : gmap string V) (key : string) (v : V) :
  object !! key = Some v -> Js.get object key = Js.Own v.
Proof. intros Hk. unfold Js.get. rewrite Hk. reflexivity. Qed.

Lemma get_absent (object : gmap string V) (key : string) :
  object !! key = None ->
  key ∉ Js.Object_prototype_members ->
  Js.get object key = Js.Absent.
Proof.
  intros Hk Hnot. unfold Js.get. rewrite Hk.
  rewrite bool_decide_eq_false_2 by exact Hnot. reflexivity.
Qed.

Lemma get_inherited (object : gmap string V) (key : string) :
  object !! key = None ->
  key ∈ Js.Object_prototype_members ->
  Js.get object key = Js.Inherited key.
Proof.
  intros Hk Hin. unfold Js.get. rewrite Hk.
  rewrite bool_decide_eq_true_2 by exact Hin. reflexivity.
Qed.

Lemma get_own_inv (object : gmap string V) (key : string) (v : V) :
  Js.get object key = Js.Own v -> object !! key = Some v.
Proof.
  unfold Js.get. destruct (object !! key); [intros [= ->]; reflexivity|].
  case_bool_decide; discriminate.
Qed.

End JsObjects.

(** ** Identifiers as strings *)

Section KeyStrings.

Lemma pretty_N_char_digit (d : N) :
  (d < 10)%N -> Js.digit_value (pretty_N_char d) = Some (Z.of_N d).
Proof.
  intros Hd.
  assert (d = 0 \/ d = 1 \/ d = 2 \/ d = 3 \/ d = 4 \/ d = 5 \/ d = 6
          \/ d = 7 \/ d = 8 \/ d = 9)%N as Hcases by lia.
  repeat (destruct Hcases as [->|Hcases]; [reflexivity|]).
  subst d. reflexivity.
Qed.

Lemma pretty_N_char_is_digit (d : N) : is_Some (Js.digit_value (pretty_N_char d)).
Proof. unfold pretty_N_char. repeat case_match; eexists; reflexivity. Qed.

Lemma pretty_N_go_all_chars (P : ascii -> bool) (x : N) (s : string) :
  (forall d : N, P (pretty_N_char d) = true) ->
  all_chars P s = true ->
  all_chars P (pretty_N_go x s) = true.
Proof.
  intros HP. revert s. induction (N.lt_wf_0 x) as [x _ IH]. intros s Hs.
  destruct (decide (x = 0)%N) as [->|Hx]; [rewrite pretty_N_go_0; exact Hs|].
  rewrite pretty_N_go_step by lia.
  apply IH; [apply N.div_lt; lia|]. cbn. rewrite HP, Hs. reflexivity.
Qed.

Lemma pretty_N_all_chars (P : ascii -> bool) (x : N) :
  (forall d : N, P (pretty_N_char d) = true) ->
  all_chars P (pretty x) = true.
Proof.
  intros HP. unfold pretty, pretty_N. case_decide.
  - pose proof (HP 0%N) as H0. cbn in *. rewrite H0. reflexivity.
  - apply pretty_N_go_all_chars; [exact HP|reflexivity].
Qed.

Lemma digit_or_dash_pretty_N_char (d : N) : is_digit_or_dash (pretty_N_char d) = true.
Proof.
  unfold is_digit_or_dash. destruct (pretty_N_char_is_digit d) as [v ->]. reflexivity.
Qed.

Lemma pretty_Z_all_chars (z : Z) : all_chars is_digit_or_dash (pretty z) = true.
Proof.
  destruct z as [|q|q]; [reflexivity| |].
  - apply (pretty_N_all_chars _ (N.pos q)), digit_or_dash_pretty_N_char.
  - change (pretty (Z.neg q)) with (String "-"%char (pretty (N.pos q))).
    cbn [all_chars]. rewrite (pretty_N_all_chars _ (N.pos q)); [reflexivity|].
    apply digit_or_dash_pretty_N_char.
Qed.

Lemma to_string_inj (n n' : number) : Js.to_string n = Js.to_string n' -> n = n'.
Proof.
  destruct n as [z|], n' as [z'|]; cbn; intros Heq.
  - f_equal. apply (inj pretty). exact Heq.
  - pose proof (pretty_Z_all_chars z) as H. rewrite Heq in H. discriminate H.
  - pose proof (pretty_Z_all_chars z') as H. rewrite <- Heq in H. discriminate H.
  - reflexivity.
Qed.

Lemma to_string_no_slash (n : number) : all_chars not_slash (Js.to_string n) = true.
Proof.
  destruct n as [z|]; [|reflexivity]. cbn.
  destruct z as [|q|q]; [reflexivity| |].
  - apply (pretty_N_all_chars _ (N.pos q)). intros d. unfold pretty_N_char.
    repeat case_match; reflexivity.
  - change (pretty (Z.neg q)) with (String "-"%char (pretty (N.pos q))).
    cbn [all_chars]. rewrite (pretty_N_all_chars _ (N.pos q)); [reflexivity|].
    intros d. unfold pretty_N_char. repeat case_match; reflexivity.
Qed.

Lemma append_nil_l (s : string) : "" +:+ s = s.
Proof. reflexivity. Qed.

Lemma append_cons (c : ascii) (s r : string) : String c s +:+ r = String c (s +:+ r).
Proof. reflexivity. Qed.

Lemma split_at_slash (s1 s2 r1 r2 : string) :
  all_chars not_slash s1 = true ->
  all_chars not_slash s2 = true ->
  s1 +:+ "/" +:+ r1 = s2 +:+ "/" +:+ r2 ->
  s1 = s2 /\ r1 = r2.
Proof.
  revert s2. induction s1 as [|c s1 IH]; intros [|c' s2] H1 H2 Heq;
    rewrite ?append_nil_l, ?append_cons in Heq; cbn [all_chars] in H1, H2.
  - injection Heq as Heq. split; [reflexivity|exact Heq].
  - injection Heq as Hc _. subst c'. discriminate H2.
  - injection Heq as Hc _. subst c. discriminate H1.
  - injection Heq as Hc Heq. subst c'.
    apply andb_prop in H1 as [_ H1]. apply andb_prop in H2 as [_ H2].
    destruct (IH s2 H1 H2 Heq) as [-> ->]. split; reflexivity.
Qed.

Lemma getDiffsKey_eq_inv (a b h a' b' h' : number) :
  getDiffsKey a b h = getDiffsKey a' b' h' ->
  a = a' /\ b = b' /\ h = h'.
Proof.
  unfold getDiffsKey. intros Heq.
  apply split_at_slash in Heq as [Ha Heq]; try apply to_string_no_slash.
  apply split_at_slash in Heq as [Hb Hh]; try apply to_string_no_slash.
  split; [|split]; apply to_string_inj; assumption.
Qed.

End KeyStrings.

(** ** Normalization of diff changes *)

Section Normalization.

Lemma lineNumber_insert (c : ExternalChange.t) :
  ExternalChange.type c = insert ->
  Change.lineNumber (createInternalChange c) = ExternalChange.new_line_number c.
Proof.
  intros Ht. unfold createInternalChange. cbn. rewrite Ht. reflexivity.
Qed.

Lemma lineNumber_not_insert (c : ExternalChange.t) :
  ExternalChange.type c <> insert ->
  Change.lineNumber (createInternalChange c) = ExternalChange.old_line_number c.
Proof.
  intros Ht. unfold createInternalChange. cbn.
  destruct (ExternalChange.type c); try reflexivity. contradiction.
Qed.

(** C3, as stated, fails on a normal line whose two numbers differ: the
    displayed number of the unchanged line at old line 2, new line 3 is 2. *)
Lemma lineNumber_normal_counterexample :
  Change.lineNumber (createInternalChange (Sample.change normal 3 2)) = 2
  /\ lineNumber_newForInsertOrNormal (Sample.change normal 3 2) = 3
  /\ ~ (Change.lineNumber (createInternalChange (Sample.change normal 3 2))
       = lineNumber_newForInsertOrNormal (Sample.change normal 3 2)).
Proof. repeat split. vm_compute. discriminate. Qed.

(** C3 (amended): for every raw change the displayed line number is the new
    line number when the change is an insert and the old line number
    otherwise (delete and normal); the two changes of the example normalize to
    line 5 for the insert and line 7 for the delete, and the new and old
    numbers are kept next to it. *)
Theorem lineNumber_new_iff_insert :
  (forall c : ExternalChange.t,
     Change.lineNumber (createInternalChange c) =
       match ExternalChange.type c with
       | insert => ExternalChange.new_line_number c
       | delete | normal => ExternalChange.old_line_number c
       end
     /\ Change.newLineNumber (createInternalChange c) = ExternalChange.new_line_number c
     /\ Change.oldLineNumber (createInternalChange c) = ExternalChange.old_line_number c)
  /\ map Change.lineNumber
       (Hunk.changes
          (createInternalHunk
             (ExternalHunk.mk
                [ExternalChange.mk "a" 5 0 insert; ExternalChange.mk "b" 0 7 delete]
                "@@" 1 5 1 7)))
     = [5; 7].
Proof.
  split.
  - intros c. split; [|split; reflexivity].
    destruct (ExternalChange.type c) eqn:Ht.
    + apply lineNumber_not_insert. congruence.
    + apply lineNumber_not_insert. congruence.
    + apply lineNumber_insert. assumption.
  - reflexivity.
Qed.

End Normalization.

(** ** The whole-file status of a diff *)

Section GitStatus.

Lemma GIT_STATUS_TO_TYPE_other (mode : string) :
  mode ∉ ["A"; "C"; "D"; "M"; "R"] ->
  GIT_STATUS_TO_TYPE !! mode = None.
Proof.
  intros Hnot. unfold GIT_STATUS_TO_TYPE. cbn [list_to_map foldr].
  repeat (rewrite lookup_insert_ne;
          [| intros <-; apply Hnot; set_solver]).
  apply lookup_empty.
Qed.

(** C9, as stated for any mode string outside A, C, D, M and R, fails on
    the mode "constructor": the table is a plain object, the read finds
    the member it inherits under that name, which is truthy, and the
    default does not apply. *)
Lemma gitStatusToType_constructor_counterexample :
  ("constructor" ∉ ["A"; "C"; "D"; "M"; "R"])
  /\ gitStatusToType "constructor" = Js.Inherited "constructor"
  /\ ~ (gitStatusToType "constructor" = Js.Own "modify").
Proof.
  split; [|split].
  - intros Hin.
    repeat (apply elem_of_cons in Hin as [Heq | Hin]; [discriminate Heq|]).
    inversion Hin.
  - vm_compute. reflexivity.
  - vm_compute. discriminate.
Qed.

(** C9 (amended): the mode letters A, C, D, M and R give add, copy, delete,
    modify and rename; every other mode string that is not the name of a
    member inherited from Object.prototype gives modify; for no mode
    string at all is the result undefined; and the [type] of the diffs
    that [createInternalDiffs] returns are these results, one per raw
    diff and in order. *)
Theorem gitStatusToType_total :
  gitStatusToType "A" = Js.Own "add"
  /\ gitStatusToType "C" = Js.Own "copy"
  /\ gitStatusToType "D" = Js.Own "delete"
  /\ gitStatusToType "M" = Js.Own "modify"
  /\ gitStatusToType "R" = Js.Own "rename"
  /\ (forall mode : string,
        mode ∉ ["A"; "C"; "D"; "M"; "R"] ->
        mode ∉ Js.Object_prototype_members ->
        gitStatusToType mode = Js.Own "modify")
  /\ (forall mode : string, gitStatusToType mode <> Js.Absent)
  /\ (forall (b h : number) (version : ExternalVersionWithDiff),
        map DiffInfo.type (createInternalDiffs b h version)
        = map (fun raw => gitStatusToType (ExternalDiff.mode raw))
            (ExternalVersionFileWithDiff.diff (ExternalVersion.file version))).
Proof.
  assert (Hother : forall mode : string,
            mode ∉ ["A"; "C"; "D"; "M"; "R"] ->
            mode ∉ Js.Object_prototype_members ->
            gitStatusToType mode = Js.Own "modify").
  { intros mode Hnot Hproto. unfold gitStatusToType.
    rewrite (get_absent _ mode (GIT_STATUS_TO_TYPE_other mode Hnot) Hproto).
    reflexivity. }
  repeat split; try (vm_compute; reflexivity).
  - exact Hother.
  - intros mode.
    destruct (decide (mode ∈ ["A"; "C"; "D"; "M"; "R"])) as [Hin|Hout].
    + repeat (apply elem_of_cons in Hin as [-> | Hin]; [vm_compute; discriminate|]).
      inversion Hin.
    + destruct (decide (mode ∈ Js.Object_prototype_members)) as [Hproto|Hproto].
      * unfold gitStatusToType.
        rewrite (get_inherited _ mode (GIT_STATUS_TO_TYPE_other mode Hout) Hproto).
        discriminate.
      * rewrite (Hother mode Hout Hproto). discriminate.
  - intros b h version. unfold createInternalDiffs. rewrite map_map. reflexivity.
Qed.

(** An unknown mode letter, and a longer string, both give modify. *)
Lemma gitStatusToType_total_witness :
  ("X" ∉ ["A"; "C"; "D"; "M"; "R"])
  /\ ("X" ∉ Js.Object_prototype_members)
  /\ gitStatusToType "X" = Js.Own "modify"
  /\ gitStatusToType "rename" = Js.Own "modify".
Proof.
  pose proof gitStatusToType_total as (_ & _ & _ & _ & _ & Hother & _).
  assert (Hnot : forall (x : string) (l : list string),
            bool_decide (x ∈ l) = false -> x ∉ l).
  { intros x l Hb Hin. apply (bool_decide_eq_false_1 _ Hb). exact Hin. }
  assert (H1 : "X" ∉ ["A"; "C"; "D"; "M"; "R"]) by (apply Hnot; reflexivity).
  assert (H1' : "X" ∉ Js.Object_prototype_members) by (apply Hnot; reflexivity).
  assert (H2 : "rename" ∉ ["A"; "C"; "D"; "M"; "R"]) by (apply Hnot; reflexivity).
  assert (H2' : "rename" ∉ Js.Object_prototype_members) by (apply Hnot; reflexivity).
  exact (conj H1 (conj H1' (conj (Hother "X" H1 H1') (Hother "rename" H2 H2')))).
Defined.

End GitStatus.

(** ** The reducer: file contents *)

Section LoadVersionFile.

(** C4, as stated, fails: on the empty store, which knows no version, a
    file-content action for version 5 returns a state that differs from the
    one it was given, and the file is in it. *)
Lemma loadVersionFile_unknown_version_counterexample :
  getVersionInfo initialState (Num 5) = None
  /\ ~ (reducer initialState
          (actions.loadVersionFile "manifest.json"
             (Sample.versionWithContent 5 ["manifest.json"] "manifest.json"))
        = Ok initialState)
  /\ (exists s' files,
        reducer initialState
          (actions.loadVersionFile "manifest.json"
             (Sample.versionWithContent 5 ["manifest.json"] "manifest.json"))
        = Ok s'
        /\ getVersionFiles s' (Num 5) = Some files
        /\ is_Some (files !! "manifest.json")).
Proof.
  split; [reflexivity|]. split.
  - intros Heq.
    apply (f_equal (fun r =>
             match r with
             | Ok s => VersionsState.versionFiles s !! Num 5
             | TypeError => None
             end)) in Heq.
    vm_compute in Heq. discriminate Heq.
  - eexists. eexists. split; [reflexivity|]. split.
    + cbn. unfold getVersionFiles. cbn. apply lookup_insert_eq.
    + rewrite lookup_insert_eq. eexists; reflexivity.
Qed.

(** C4 (amended): the file-content action does not look at the version
    metadata. When the metadata of the referenced version is absent the
    reducer still returns normally and stores the normalized file under
    (version id, path); the metadata, the diff cache and the version lists
    are unchanged; it is the [getVersionFile] selector that still answers
    undefined for that version; and the state is a new one unless that very
    file was already stored there. *)
Theorem loadVersionFile_without_version_info
    (s : VersionsState.t) (path : string) (version : ExternalVersionWithContent) :
  getVersionInfo s (ExternalVersion.id version) = None ->
  exists s',
    reducer s (actions.loadVersionFile path version) = Ok s'
    /\ (exists files,
          getVersionFiles s' (ExternalVersion.id version) = Some files
          /\ files !! path
             = Some (createInternalVersionFile (ExternalVersion.file version)))
    /\ VersionsState.versionInfo s' = VersionsState.versionInfo s
    /\ VersionsState.diffsByPath s' = VersionsState.diffsByPath s
    /\ VersionsState.byAddonId s' = VersionsState.byAddonId s
    /\ getVersionFile s' (ExternalVersion.id version) path = Ok None
    /\ (default ∅ (getVersionFiles s (ExternalVersion.id version)) !! path
          <> Some (createInternalVersionFile (ExternalVersion.file version))
        -> s' <> s).
Proof.
  intros Hinfo. eexists. split; [reflexivity|].
  repeat split.
  - eexists. split.
    + unfold getVersionFiles. cbn. apply lookup_insert_eq.
    + apply lookup_insert_eq.
  - unfold getVersionFile.
    replace (getVersionInfo _ (ExternalVersion.id version)) with (@None VersionObject).
    reflexivity.
  - intros Hnew Heq.
    apply Hnew. rewrite <- Heq at 1.
    unfold getVersionFiles. cbn. rewrite lookup_insert_eq. cbn.
    apply lookup_insert_eq.
Qed.

Lemma loadVersionFile_without_version_info_witness :
  getVersionInfo initialState (Num 5) = None
  /\ exists s',
       reducer initialState
         (actions.loadVersionFile "manifest.json"
            (Sample.versionWithContent 5 ["manifest.json"] "manifest.json"))
       = Ok s'
       /\ getVersionFile s' (Num 5) "manifest.json" = Ok None.
Proof.
  split; [reflexivity|].
  destruct (loadVersionFile_without_version_info initialState "manifest.json"
              (Sample.versionWithContent 5 ["manifest.json"] "manifest.json")
              eq_refl)
    as (s' & Hred & _ & _ & _ & _ & Hsel & _).
  exists s'. split; assumption.
Defined.

End LoadVersionFile.

(** ** The reducer: the diff cache *)

Section DiffCache.

Ltac ok_inv H := injection H as H; subst.

Lemma reducer_other_key (s s' : VersionsState.t) (action : actions.t) (k : string) :
  reducer s action = Ok s' ->
  diffsKeyOf action <> Some k ->
  VersionsState.diffsByPath s' !! k = VersionsState.diffsByPath s !! k.
Proof.
  intros Hred Hk. destruct action; cbn in Hred, Hk;
    try (ok_inv Hred; cbn; first [reflexivity | apply lookup_insert_ne; congruence]).
  destruct (getVersionInfo s headVersionId) as [[v|p]|]; try discriminate Hred.
  destruct (find_entry _ _); ok_inv Hred; cbn; [|reflexivity].
  apply lookup_insert_ne. congruence.
Qed.

Lemma reduce_all_other_key (l : list actions.t) (s s' : VersionsState.t) (k : string) :
  reduce_all s l = Ok s' ->
  Forall (fun action => diffsKeyOf action <> Some k) l ->
  VersionsState.diffsByPath s' !! k = VersionsState.diffsByPath s !! k.
Proof.
  revert s. induction l as [|action rest IH]; intros s Hrun Hall; cbn in Hrun.
  - ok_inv Hrun. reflexivity.
  - destruct (reducer s action) as [s1|] eqn:Hstep; [|discriminate Hrun].
    inversion Hall as [|? ? Hhead Htail]; subst.
    rewrite (IH s1 Hrun Htail). eapply reducer_other_key; eassumption.
Qed.

Lemma beginFetchDiff_resets (s : VersionsState.t) (a b h : number) :
  exists s',
    reducer s (actions.beginFetchDiff a b h) = Ok s'
    /\ getCompareInfoMap s' a b h = Some (Some ∅)
    /\ VersionsState.versionInfo s' = VersionsState.versionInfo s.
Proof.
  eexists. split; [reflexivity|]. split; [|reflexivity].
  unfold getCompareInfoMap. cbn. apply lookup_insert_eq.
Qed.

Lemma abortFetchDiff_nulls (s : VersionsState.t) (a b h : number) :
  exists s',
    reducer s (actions.abortFetchDiff a b h) = Ok s'
    /\ getCompareInfoMap s' a b h = Some None.
Proof.
  eexists. split; [reflexivity|].
  unfold getCompareInfoMap. cbn. apply lookup_insert_eq.
Qed.

(** What [LOAD_DIFF] does once the head version and the entry of its
    selected path are found: one path of one key is written. *)
Lemma loadDiff_merges (s : VersionsState.t) (a b h : number)
    (version : ExternalVersionWithDiff) (v : Version.t) (entry : VersionEntry.t) :
  getVersionInfo s h = Some (Loaded v) ->
  find_entry (Version.entries v) (Version.selectedPath v) = Some entry ->
  exists s',
    reducer s (actions.loadDiff a b h version) = Ok s'
    /\ getCompareInfoMap s' a b h
       = Some (Some (<[Version.selectedPath v :=
                         CompareInfo.mk (createInternalDiffs b h version)
                           (VersionEntry.mimeType entry)]>
                       (spread (getCompareInfoMap s a b h))))
    /\ VersionsState.versionInfo s' = VersionsState.versionInfo s
    /\ VersionsState.versionFiles s' = VersionsState.versionFiles s
    /\ VersionsState.byAddonId s' = VersionsState.byAddonId s.
Proof.
  intros Hinfo Hentry. eexists. split.
  - cbn. rewrite Hinfo, Hentry. reflexivity.
  - repeat split. unfold getCompareInfoMap. cbn. apply lookup_insert_eq.
Qed.

Lemma diffsKeyOf_other_comparison (action : actions.t) (a b h : number) :
  comparisonOf action <> Some (a, b, h) ->
  diffsKeyOf action <> Some (getDiffsKey a b h).
Proof.
  intros Hne Hkey. apply Hne.
  destruct action; cbn in Hkey |- *; try discriminate Hkey;
    injection Hkey as Hkey;
    apply getDiffsKey_eq_inv in Hkey as (-> & -> & ->); reflexivity.
Qed.

(** C6: the selector tells three states of a comparison apart. On the
    initial store, and after any actions none of which is a begin, abort
    or diff-loaded action for that comparison (they may be for other
    comparisons), it answers undefined; right after the begin action it
    answers the empty mapping; right after the abort action it answers
    null; and after a diff-loaded action that finds the entry of the head
    version's selected path it answers a mapping that holds that path. *)
Theorem diff_cache_three_states (a b h : number) :
  getCompareInfoMap initialState a b h = None
  /\ (forall (l : list actions.t) (s : VersionsState.t),
        reduce_all initialState l = Ok s ->
        Forall (fun action => comparisonOf action <> Some (a, b, h)) l ->
        getCompareInfoMap s a b h = None)
  /\ (forall s : VersionsState.t,
        exists s',
          reducer s (actions.beginFetchDiff a b h) = Ok s'
          /\ getCompareInfoMap s' a b h = Some (Some ∅))
  /\ (forall s : VersionsState.t,
        exists s',
          reducer s (actions.abortFetchDiff a b h) = Ok s'
          /\ getCompareInfoMap s' a b h = Some None)
  /\ (forall (s : VersionsState.t) (version : ExternalVersionWithDiff)
             (v : Version.t) (entry : VersionEntry.t),
        getVersionInfo s h = Some (Loaded v) ->
        find_entry (Version.entries v) (Version.selectedPath v) = Some entry ->
        exists s' m,
          reducer s (actions.loadDiff a b h version) = Ok s'
          /\ getCompareInfoMap s' a b h = Some (Some m)
          /\ m !! Version.selectedPath v
             = Some (CompareInfo.mk (createInternalDiffs b h version)
                       (VersionEntry.mimeType entry))).
Proof.
  split; [reflexivity|]. split; [|split; [|split]].
  - intros l s Hrun Hall. unfold getCompareInfoMap.
    rewrite (reduce_all_other_key l initialState s _ Hrun); [reflexivity|].
    eapply Forall_impl; [exact Hall|].
    intros action Hne. apply diffsKeyOf_other_comparison. exact Hne.
  - intros s. destruct (beginFetchDiff_resets s a b h) as (s' & H1 & H2 & _).
    exists s'. split; assumption.
  - intros s. apply abortFetchDiff_nulls.
  - intros s version v entry Hinfo Hentry.
    destruct (loadDiff_merges s a b h version v entry Hinfo Hentry)
      as (s' & Hred & Hmap & _).
    eexists. eexists. split; [exact Hred|]. split; [exact Hmap|].
    apply lookup_insert_eq.
Qed.

(** The scenario 9999/1/2 with the path manifest.json, from the store in
    which version 2 is loaded and nothing was requested; and the
    comparison 9999/1/2 after a begin and an abort for 9999/1/3 and a
    begin for 9999/2/1. *)
Lemma diff_cache_three_states_witness :
  let s := Sample.store ["manifest.json"] "manifest.json" ∅ in
  (exists s0,
     reduce_all initialState
       [actions.beginFetchDiff (Num 9999) (Num 1) (Num 3);
        actions.abortFetchDiff (Num 9999) (Num 1) (Num 3);
        actions.beginFetchDiff (Num 9999) (Num 2) (Num 1)]
     = Ok s0
     /\ getCompareInfoMap s0 (Num 9999) (Num 1) (Num 2) = None
     /\ getCompareInfoMap s0 (Num 9999) (Num 1) (Num 3) = Some None)
  /\ getCompareInfoMap s (Num 9999) (Num 1) (Num 2) = None
  /\ exists s' m,
       reducer s
         (actions.loadDiff (Num 9999) (Num 1) (Num 2)
            (Sample.versionWithDiff 2 ["manifest.json"] "manifest.json"))
       = Ok s'
       /\ getCompareInfoMap s' (Num 9999) (Num 1) (Num 2) = Some (Some m)
       /\ m !! "manifest.json" = Some (Sample.info "manifest.json").
Proof.
  destruct (diff_cache_three_states (Num 9999) (Num 1) (Num 2))
    as (_ & Hnever & _ & _ & Hload).
  split; [|split; [reflexivity|]].
  - eexists. split; [reflexivity|]. split; [|reflexivity].
    apply (Hnever
             [actions.beginFetchDiff (Num 9999) (Num 1) (Num 3);
              actions.abortFetchDiff (Num 9999) (Num 1) (Num 3);
              actions.beginFetchDiff (Num 9999) (Num 2) (Num 1)]);
      [reflexivity|].
    repeat (constructor; [discriminate|]). constructor.
  - exact (Hload (Sample.store ["manifest.json"] "manifest.json" ∅)
             (Sample.versionWithDiff 2 ["manifest.json"] "manifest.json")
             _ _ eq_refl eq_refl).
Defined.

(** C7: when a comparison key holds cached results for the paths A and B,
    and the diff-loaded action is applied while the head version's selected
    path is a third path C whose entry exists, the reducer returns a state
    whose mapping for that key holds A and B with the results they had and
    the new result at C; every other path of the mapping is as before. *)
Theorem loadDiff_preserves_siblings
    (s : VersionsState.t) (a b h : number) (version : ExternalVersionWithDiff)
    (v : Version.t) (entry : VersionEntry.t) (m : CompareInfoMap)
    (A B : string) (dA dB : CompareInfo.t) :
  getCompareInfoMap s a b h = Some (Some m) ->
  m !! A = Some dA ->
  m !! B = Some dB ->
  getVersionInfo s h = Some (Loaded v) ->
  find_entry (Version.entries v) (Version.selectedPath v) = Some entry ->
  A <> Version.selectedPath v ->
  B <> Version.selectedPath v ->
  exists s' m',
    reducer s (actions.loadDiff a b h version) = Ok s'
    /\ getCompareInfoMap s' a b h = Some (Some m')
    /\ m' !! A = Some dA
    /\ m' !! B = Some dB
    /\ m' !! Version.selectedPath v
       = Some (CompareInfo.mk (createInternalDiffs b h version)
                 (VersionEntry.mimeType entry))
    /\ (forall p : string, p <> Version.selectedPath v -> m' !! p = m !! p).
Proof.
  intros Hmap HA HB Hinfo Hentry HAC HBC.
  destruct (loadDiff_merges s a b h version v entry Hinfo Hentry)
    as (s' & Hred & Hmap' & _).
  rewrite Hmap in Hmap'. cbn [spread] in Hmap'.
  eexists. eexists. split; [exact Hred|]. split; [exact Hmap'|].
  assert (Hframe : forall p : string,
            p <> Version.selectedPath v ->
            <[Version.selectedPath v :=
                CompareInfo.mk (createInternalDiffs b h version)
                  (VersionEntry.mimeType entry)]> m !! p = m !! p).
  { intros p Hp. apply lookup_insert_ne. congruence. }
  repeat split.
  - rewrite Hframe; assumption.
  - rewrite Hframe; assumption.
  - apply lookup_insert_eq.
  - exact Hframe.
Qed.

(** Paths a.js and b.js are cached for 9999/1/2 and c.js is selected. *)
Lemma loadDiff_preserves_siblings_witness :
  exists s' m',
    reducer Sample.storeABC
      (actions.loadDiff (Num 9999) (Num 1) (Num 2)
         (Sample.versionWithDiff 2 ["c.js"] "c.js"))
    = Ok s'
    /\ getCompareInfoMap s' (Num 9999) (Num 1) (Num 2) = Some (Some m')
    /\ m' !! "a.js" = Some (Sample.info "a.js")
    /\ m' !! "b.js" = Some (Sample.info "b.js")
    /\ m' !! "c.js" = Some (Sample.info "c.js").
Proof.
  assert (Hmap : getCompareInfoMap Sample.storeABC (Num 9999) (Num 1) (Num 2)
                 = Some (Some Sample.cacheAB)) by reflexivity.
  assert (HA : Sample.cacheAB !! "a.js" = Some (Sample.info "a.js"))
    by reflexivity.
  assert (HB : Sample.cacheAB !! "b.js" = Some (Sample.info "b.js"))
    by reflexivity.
  assert (Hinfo : getVersionInfo Sample.storeABC (Num 2)
                  = Some (Loaded Sample.versionABC)) by reflexivity.
  assert (Hentry : find_entry (Version.entries Sample.versionABC)
                     (Version.selectedPath Sample.versionABC)
                   = Some (createInternalVersionEntry (Sample.entry "c.js")))
    by reflexivity.
  assert (HAC : "a.js" <> Version.selectedPath Sample.versionABC)
    by discriminate.
  assert (HBC : "b.js" <> Version.selectedPath Sample.versionABC)
    by discriminate.
  destruct (loadDiff_preserves_siblings Sample.storeABC
              (Num 9999) (Num 1) (Num 2)
              (Sample.versionWithDiff 2 ["c.js"] "c.js")
              _ _ _ _ _ _ _ Hmap HA HB Hinfo Hentry HAC HBC)
    as (s' & m' & Hred & Hmap' & HA' & HB' & HC' & _).
  exists s', m'. repeat split; assumption.
Defined.

(** C10: the diff-loaded action reads [entries] and [selectedPath] of the
    head version before its guard on the entry. Without metadata for the
    head version the reducer raises instead of returning; it returns
    exactly when the head version is loaded; and the silent return of the
    unchanged state is the case of a loaded head version whose selected
    path has no entry. *)
Theorem loadDiff_requires_head_version
    (s : VersionsState.t) (a b h : number) (version : ExternalVersionWithDiff) :
  (getVersionInfo s h = None ->
   reducer s (actions.loadDiff a b h version) = TypeError)
  /\ ((exists s', reducer s (actions.loadDiff a b h version) = Ok s')
      <-> (exists v, getVersionInfo s h = Some (Loaded v)))
  /\ (forall v : Version.t,
        getVersionInfo s h = Some (Loaded v) ->
        find_entry (Version.entries v) (Version.selectedPath v) = None ->
        reducer s (actions.loadDiff a b h version) = Ok s).
Proof.
  split; [|split].
  - intros Hnone. cbn. rewrite Hnone. reflexivity.
  - split.
    + intros (s' & Hred). cbn in Hred.
      destruct (getVersionInfo s h) as [[v|p]|]; try discriminate Hred.
      exists v. reflexivity.
    + intros (v & Hinfo). cbn. rewrite Hinfo.
      destruct (find_entry _ _); eexists; reflexivity.
  - intros v Hinfo Hentry. cbn. rewrite Hinfo, Hentry. reflexivity.
Qed.

(** On the initial store the diff-loaded action for 9999/1/2 raises; it is
    not the return of the unchanged state. *)
Lemma loadDiff_requires_head_version_witness :
  getVersionInfo initialState (Num 2) = None
  /\ reducer initialState
       (actions.loadDiff (Num 9999) (Num 1) (Num 2)
          (Sample.versionWithDiff 2 ["manifest.json"] "manifest.json"))
     = TypeError
  /\ ~ (reducer initialState
          (actions.loadDiff (Num 9999) (Num 1) (Num 2)
             (Sample.versionWithDiff 2 ["manifest.json"] "manifest.json"))
        = Ok initialState).
Proof.
  destruct (loadDiff_requires_head_version initialState (Num 9999) (Num 1) (Num 2)
              (Sample.versionWithDiff 2 ["manifest.json"] "manifest.json"))
    as (Hraise & _ & _).
  split; [reflexivity|]. split.
  - exact (Hraise eq_refl).
  - rewrite (Hraise eq_refl). discriminate.
Defined.

End DiffCache.

(** ** The fetch thunk *)

Section FetchDiffRun.

Variable _getDiff : GetDiffParams.t -> DiffResponse.

Lemma dispatch_ok (s s' : VersionsState.t) (action : actions.t) :
  reducer s action = Ok s' ->
  dispatch action s = ([Dispatched action], Ok (tt, s')).
Proof. intros Hred. unfold dispatch. rewrite Hred. reflexivity. Qed.

Lemma fetchDiff_run (p : FetchDiffParams.t) (s : VersionsState.t) :
  let a := FetchDiffParams.addonId p in
  let b := FetchDiffParams.baseVersionId p in
  let h := FetchDiffParams.headVersionId p in
  let call := GetDiffParams.mk a b (Num 123) (FetchDiffParams.path p) in
  fetchDiff _getDiff p s =
    match _getDiff call with
    | ErrorResponse error =>
        ([Dispatched (actions.beginFetchDiff a b h);
          GetDiffCalled call;
          LoggedError ("TODO: handle this error response: " +:+ error);
          Dispatched (actions.abortFetchDiff a b h)],
         Ok (tt, afterAbort (afterBegin s a b h) a b h))
    | VersionResponse version =>
        ([Dispatched (actions.beginFetchDiff a b h);
          GetDiffCalled call;
          Dispatched (actions.loadVersionInfo (WithDiff version));
          Dispatched (actions.loadDiff a b h version)],
         match reducer (afterVersionInfo (afterBegin s a b h) version)
                 (actions.loadDiff a b h version) with
         | Ok s' => Ok (tt, s')
         | TypeError => TypeError
         end)
    end.
Proof.
  cbv zeta. unfold fetchDiff, bind.
  set (a := FetchDiffParams.addonId p).
  set (b := FetchDiffParams.baseVersionId p).
  set (h := FetchDiffParams.headVersionId p).
  rewrite (dispatch_ok s (afterBegin s a b h) (actions.beginFetchDiff a b h) eq_refl).
  unfold call_getDiff. cbv beta iota.
  destruct (_getDiff _) as [error|version].
  - unfold emit. cbv beta iota.
    rewrite (dispatch_ok (afterBegin s a b h) (afterAbort (afterBegin s a b h) a b h)
               (actions.abortFetchDiff a b h) eq_refl).
    reflexivity.
  - rewrite (dispatch_ok (afterBegin s a b h)
               (afterVersionInfo (afterBegin s a b h) version)
               (actions.loadVersionInfo (WithDiff version)) eq_refl).
    cbv beta iota. unfold dispatch.
    destruct (reducer _ _); reflexivity.
Qed.

(** Every run of [fetchDiff] starts with the begin action for the ids it
    was given, and then calls the API with 123 as the head version. *)
Lemma fetchDiff_trace_prefix (p : FetchDiffParams.t) (s : VersionsState.t) :
  exists rest,
    trace (fetchDiff _getDiff p s) =
      Dispatched
        (actions.beginFetchDiff (FetchDiffParams.addonId p)
           (FetchDiffParams.baseVersionId p) (FetchDiffParams.headVersionId p))
      :: GetDiffCalled
           (GetDiffParams.mk (FetchDiffParams.addonId p)
              (FetchDiffParams.baseVersionId p) (Num 123)
              (FetchDiffParams.path p))
      :: rest.
Proof.
  rewrite fetchDiff_run. cbv zeta.
  destruct (_getDiff _); eexists; reflexivity.
Qed.

End FetchDiffRun.

(** ** The Compare page: mounting and updating *)

Section ComparePage.

Variable _getDiff : GetDiffParams.t -> DiffResponse.

Lemma run_single_dispatch (d : Dispatchable) (s : VersionsState.t) :
  run_commands _getDiff [store_dispatch d] s = run_dispatchable _getDiff d s.
Proof.
  cbn [run_commands]. unfold bind, ret.
  destruct (run_dispatchable _getDiff d s) as [tr [[[] s']|]]; [|reflexivity].
  rewrite app_nil_r. reflexivity.
Qed.

Lemma gt_Num (b h : Z) : b > h -> Js.gt (Num b) (Num h) = true.
Proof. intros Hgt. cbn. apply bool_decide_eq_true. exact Hgt. Qed.

(** When base is not newer than head, mounting dispatches the fetch thunk
    with the parsed ids, whatever the props computed from the store. *)
Lemma componentDidMount_fetches (props : Props.t) :
  let params := Props.params props in
  Js.gt (parseInt (RouteParams.baseVersionId params))
        (parseInt (RouteParams.headVersionId params)) = false ->
  componentDidMount props =
    [store_dispatch
       (FetchDiffThunk
          (FetchDiffParams.mk
             (parseInt (RouteParams.addonId params))
             (parseInt (RouteParams.baseVersionId params))
             (parseInt (RouteParams.headVersionId params)) None))].
Proof.
  cbv zeta. intros Hgt. unfold componentDidMount. rewrite Hgt. reflexivity.
Qed.

(** C1, on the code: mounting with the route parameters 9999, 1 and 2 hands
    the ids 9999, 1 and 2 to the thunk creator and dispatches the begin
    action for 9999/1/2, but the call of the API collaborator that follows
    carries 123 as head version id, which is not the id parsed from the
    route. *)
Theorem mount_9999_1_2_calls_getDiff_with_head_123 (s : VersionsState.t) :
  componentDidMount (mapStateToProps s Sample.params_9999_1_2)
    = [store_dispatch
         (FetchDiffThunk (FetchDiffParams.mk (Num 9999) (Num 1) (Num 2) None))]
  /\ (exists rest,
        trace (mount _getDiff Sample.params_9999_1_2 s) =
          Dispatched (actions.beginFetchDiff (Num 9999) (Num 1) (Num 2))
          :: GetDiffCalled (GetDiffParams.mk (Num 9999) (Num 1) (Num 123) None)
          :: rest)
  /\ GetDiffParams.mk (Num 9999) (Num 1) (Num 123) None
     <> GetDiffParams.mk (parseInt "9999") (parseInt "1") (parseInt "2") None.
Proof.
  split; [reflexivity|]. split; [|discriminate].
  unfold mount.
  change (componentDidMount (mapStateToProps s Sample.params_9999_1_2))
    with [store_dispatch
            (FetchDiffThunk (FetchDiffParams.mk (Num 9999) (Num 1) (Num 2) None))].
  rewrite run_single_dispatch. cbn [run_dispatchable].
  apply (fetchDiff_trace_prefix _getDiff
           (FetchDiffParams.mk (Num 9999) (Num 1) (Num 2) None) s).
Qed.

(** C5 (amended): on mount, for all route parameters whose base and head
    version ids parse to integers that JavaScript numbers hold exactly (at
    most 2^53 - 1 in absolute value), the base one being the greater, the
    page issues exactly one command, the router push of
    /{lang}/compare/{addonId}/versions/{headVersionId}...{baseVersionId}/,
    and no dispatch at all: run against any store it leaves the single
    router event and the store as it was, with no call of the API. *)
Theorem mount_redirects_when_base_newer
    (s : VersionsState.t) (params : RouteParams.t) (b h : Z) :
  parseInt (RouteParams.baseVersionId params) = Num b ->
  parseInt (RouteParams.headVersionId params) = Num h ->
  Js.is_safe_integer b ->
  Js.is_safe_integer h ->
  b > h ->
  let url :=
    "/" +:+ RouteParams.lang params +:+ "/compare/"
      +:+ RouteParams.addonId params +:+ "/versions/"
      +:+ RouteParams.headVersionId params +:+ "..."
      +:+ RouteParams.baseVersionId params +:+ "/" in
  (forall props : Props.t,
     Props.params props = params ->
     componentDidMount props = [history_push url])
  /\ mount _getDiff params s = ([HistoryPushed url], Ok (tt, s))
  /\ dispatches_no_fetch (componentDidMount (mapStateToProps s params))
  /\ no_begin_no_call (trace (mount _getDiff params s)).
Proof.
  intros Hb Hh _ _ Hgt url.
  assert (Hmount : forall props : Props.t,
            Props.params props = params ->
            componentDidMount props = [history_push url]).
  { intros props Hp. unfold componentDidMount.
    rewrite Hp, Hb, Hh, (gt_Num b h Hgt). reflexivity. }
  assert (Hrun : mount _getDiff params s = ([HistoryPushed url], Ok (tt, s))).
  { unfold mount. rewrite (Hmount (mapStateToProps s params) eq_refl). reflexivity. }
  split; [exact Hmount|]. split; [exact Hrun|]. split.
  - intros p Hin. rewrite (Hmount (mapStateToProps s params) eq_refl) in Hin.
    apply list_elem_of_singleton in Hin. discriminate Hin.
  - intros e Hin. rewrite Hrun in Hin. cbn in Hin.
    apply list_elem_of_singleton in Hin. subst e. exact I.
Qed.

(** C8 (amended): an update whose add-on, base and head parameters equal
    the previous ones issues no command, so it dispatches neither the begin
    action nor the fetch and leaves the store as it was. A mount consults
    neither a previous tuple nor the cache: whenever base is not newer than
    head it dispatches the fetch thunk, whose run starts with the begin
    action and the call of the API, whatever the store already holds. *)
Theorem update_same_tuple_no_dispatch :
  (forall props prevProps : Props.t,
     RouteParams.addonId (Props.params props)
       = RouteParams.addonId (Props.params prevProps) ->
     RouteParams.baseVersionId (Props.params props)
       = RouteParams.baseVersionId (Props.params prevProps) ->
     RouteParams.headVersionId (Props.params props)
       = RouteParams.headVersionId (Props.params prevProps) ->
     componentDidUpdate props prevProps = [])
  /\ (forall (params prevParams : RouteParams.t) (s : VersionsState.t),
        RouteParams.addonId params = RouteParams.addonId prevParams ->
        RouteParams.baseVersionId params = RouteParams.baseVersionId prevParams ->
        RouteParams.headVersionId params = RouteParams.headVersionId prevParams ->
        update _getDiff params prevParams s = ([], Ok (tt, s)))
  /\ (forall (params : RouteParams.t) (s : VersionsState.t),
        Js.gt (parseInt (RouteParams.baseVersionId params))
              (parseInt (RouteParams.headVersionId params)) = false ->
        exists call rest,
          trace (mount _getDiff params s) =
            Dispatched
              (actions.beginFetchDiff (parseInt (RouteParams.addonId params))
                 (parseInt (RouteParams.baseVersionId params))
                 (parseInt (RouteParams.headVersionId params)))
            :: GetDiffCalled call :: rest).
Proof.
  assert (Hupd : forall props prevProps : Props.t,
     RouteParams.addonId (Props.params props)
       = RouteParams.addonId (Props.params prevProps) ->
     RouteParams.baseVersionId (Props.params props)
       = RouteParams.baseVersionId (Props.params prevProps) ->
     RouteParams.headVersionId (Props.params props)
       = RouteParams.headVersionId (Props.params prevProps) ->
     componentDidUpdate props prevProps = []).
  { intros props prevProps Ha Hb Hh. unfold componentDidUpdate, loadData.
    rewrite Ha, Hb, Hh.
    rewrite !bool_decide_eq_false_2 by (intros Hne; apply Hne; reflexivity).
    reflexivity. }
  split; [exact Hupd|]. split.
  - intros params prevParams s Ha Hb Hh. unfold update.
    rewrite (Hupd (mapStateToProps s params) (mapStateToProps s prevParams) Ha Hb Hh).
    reflexivity.
  - intros params s Hgt. unfold mount.
    rewrite (componentDidMount_fetches (mapStateToProps s params) Hgt).
    rewrite run_single_dispatch. cbn [run_dispatchable].
    destruct (fetchDiff_trace_prefix _getDiff
                (FetchDiffParams.mk
                   (parseInt (RouteParams.addonId params))
                   (parseInt (RouteParams.baseVersionId params))
                   (parseInt (RouteParams.headVersionId params)) None) s)
      as (rest & Htrace).
    eexists. exists rest. exact Htrace.
Qed.

End ComparePage.

Section ComparePageChecks.

(** The scenario with base 2, head 1, language es and add-on 123456. *)
Lemma mount_redirects_when_base_newer_witness :
  parseInt "2" = Num 2
  /\ parseInt "1" = Num 1
  /\ Js.is_safe_integer 2
  /\ Js.is_safe_integer 1
  /\ 2 > 1
  /\ componentDidMount (mapStateToProps initialState Sample.params_swapped)
     = [history_push "/es/compare/123456/versions/1...2/"]
  /\ mount Sample.getDiff_ok Sample.params_swapped initialState
     = ([HistoryPushed "/es/compare/123456/versions/1...2/"], Ok (tt, initialState)).
Proof.
  assert (Hsafe2 : Js.is_safe_integer 2) by (apply Z.leb_le; reflexivity).
  assert (Hsafe1 : Js.is_safe_integer 1) by (apply Z.leb_le; reflexivity).
  destruct (mount_redirects_when_base_newer Sample.getDiff_ok initialState
              Sample.params_swapped 2 1 eq_refl eq_refl Hsafe2 Hsafe1 eq_refl)
    as (Hcmds & Hrun & _).
  split; [reflexivity|]. split; [reflexivity|].
  split; [exact Hsafe2|]. split; [exact Hsafe1|]. split; [reflexivity|].
  split.
  - exact (Hcmds (mapStateToProps initialState Sample.params_swapped) eq_refl).
  - exact Hrun.
Defined.

(** C5, as stated for every route parameter tuple, fails on an update: when
    the parameters change from 1...2 to 2...1 on a mounted page, no router
    push is issued and the fetch thunk is dispatched with base 2 and
    head 1. *)
Lemma update_to_newer_base_counterexample :
  Js.gt (parseInt (RouteParams.baseVersionId Sample.params_swapped))
        (parseInt (RouteParams.headVersionId Sample.params_swapped)) = true
  /\ componentDidUpdate
       (mapStateToProps initialState Sample.params_swapped)
       (mapStateToProps initialState Sample.params_ordered)
     = [store_dispatch
          (FetchDiffThunk (FetchDiffParams.mk (Num 123456) (Num 2) (Num 1) None))]
  /\ ~ (componentDidUpdate
          (mapStateToProps initialState Sample.params_swapped)
          (mapStateToProps initialState Sample.params_ordered)
        = [history_push "/es/compare/123456/versions/1...2/"])
  /\ ~ dispatches_no_fetch
        (componentDidUpdate
           (mapStateToProps initialState Sample.params_swapped)
           (mapStateToProps initialState Sample.params_ordered)).
Proof.
  split; [reflexivity|]. split; [reflexivity|]. split.
  - discriminate.
  - intros Hno.
    apply (Hno (FetchDiffParams.mk (Num 123456) (Num 2) (Num 1) None)).
    apply list_elem_of_singleton. reflexivity.
Qed.

(** An update from 123456/1/2 to the same parameters, on the store left by
    a successful load. *)
Lemma update_same_tuple_no_dispatch_witness :
  componentDidUpdate
    (mapStateToProps Sample.loadedStore Sample.params_ordered)
    (mapStateToProps Sample.loadedStore Sample.params_ordered)
  = []
  /\ update Sample.getDiff_ok Sample.params_ordered Sample.params_ordered
       Sample.loadedStore
     = ([], Ok (tt, Sample.loadedStore)).
Proof.
  destruct (update_same_tuple_no_dispatch Sample.getDiff_ok) as (Hcmds & Hrun & _).
  split.
  - exact (Hcmds _ _ eq_refl eq_refl eq_refl).
  - exact (Hrun Sample.params_ordered Sample.params_ordered Sample.loadedStore
             eq_refl eq_refl eq_refl).
Defined.

(** C8, as stated for a re-mount, fails: after the page was mounted on
    9999/1/2 and the diff of manifest.json was loaded, mounting again with
    the same parameters dispatches the fetch thunk again, and its run
    dispatches the begin action and calls the API. *)
Lemma remount_same_tuple_counterexample :
  final_state (mount Sample.getDiff_ok Sample.params_9999_1_2 initialState)
    = Ok Sample.loadedStore
  /\ (exists m,
        getCompareInfoMap Sample.loadedStore (Num 9999) (Num 1) (Num 2)
          = Some (Some m)
        /\ is_Some (m !! "manifest.json"))
  /\ ~ dispatches_no_fetch
        (componentDidMount
           (mapStateToProps Sample.loadedStore Sample.params_9999_1_2))
  /\ ~ no_begin_no_call
        (trace (mount Sample.getDiff_ok Sample.params_9999_1_2 Sample.loadedStore)).
Proof.
  split; [reflexivity|]. split; [|split].
  - eexists. split; [vm_compute; reflexivity|].
    eexists. vm_compute. reflexivity.
  - intros Hno.
    apply (Hno (FetchDiffParams.mk (Num 9999) (Num 1) (Num 2) None)).
    apply list_elem_of_singleton. reflexivity.
  - intros Hno.
    apply (Hno (Dispatched (actions.beginFetchDiff (Num 9999) (Num 1) (Num 2)))).
    apply list_elem_of_here.
Qed.

End ComparePageChecks.

(** ** The Compare page: selecting a file *)

Section SelectFile.

Variable _getDiff : GetDiffParams.t -> DiffResponse.

Lemma bind_ret_tt (m : Thunk unit) (s : VersionsState.t) :
  bind m (fun _ => ret tt) s = m s.
Proof.
  unfold bind, ret. destruct (m s) as [tr [[[] s']|]]; [|reflexivity].
  rewrite app_nil_r. reflexivity.
Qed.

Lemma onSelectFile_lacking (props : Props.t) (path : string) :
  let params := Props.params props in
  lacks_path (Props.compareInfoMap props) path = true ->
  onSelectFile props path =
    [store_dispatch
       (PlainAction
          (actions.updateSelectedPath path
             (parseInt (RouteParams.headVersionId params))));
     store_dispatch
       (FetchDiffThunk
          (FetchDiffParams.mk
             (parseInt (RouteParams.addonId params))
             (parseInt (RouteParams.baseVersionId params))
             (parseInt (RouteParams.headVersionId params)) (Some path)))].
Proof. cbv zeta. intros Hlack. unfold onSelectFile. rewrite Hlack. reflexivity. Qed.

Lemma selectFile_run (params : RouteParams.t) (path : string) (s : VersionsState.t) :
  let a := parseInt (RouteParams.addonId params) in
  let b := parseInt (RouteParams.baseVersionId params) in
  let h := parseInt (RouteParams.headVersionId params) in
  lacks_path (getCompareInfoMap s a b h) path = true ->
  selectFile _getDiff params path s =
    (Dispatched (actions.updateSelectedPath path h)
       :: fst (fetchDiff _getDiff (FetchDiffParams.mk a b h (Some path))
                 (afterSelectedPath s path h)),
     snd (fetchDiff _getDiff (FetchDiffParams.mk a b h (Some path))
            (afterSelectedPath s path h))).
Proof.
  cbv zeta. intros Hlack. unfold selectFile.
  rewrite (onSelectFile_lacking (mapStateToProps s params) path Hlack).
  cbn [run_commands run_dispatchable Props.params mapStateToProps].
  unfold bind at 1.
  rewrite (dispatch_ok s
             (afterSelectedPath s path (parseInt (RouteParams.headVersionId params)))
             (actions.updateSelectedPath path
                (parseInt (RouteParams.headVersionId params)))
             eq_refl).
  rewrite bind_ret_tt.
  destruct (fetchDiff _ _ _) as [tr r]. reflexivity.
Qed.

(** C2 (amended): when a file is selected and the mapping of the current
    comparison key is absent or null, or reading it at the path finds
    nothing (no entry and no inherited member), the page dispatches the
    selected-path update and then the fetch for that path, and this fetch
    does dispatch the begin action before it calls the API. The begin
    action replaces the mapping of the key by the empty one, so the diffs
    cached for other paths are dropped: when the run ends normally the
    mapping is null or holds at most the head version's selected path. *)
Theorem selectFile_fetch_resets_cache
    (params : RouteParams.t) (path : string) (s : VersionsState.t) :
  let a := parseInt (RouteParams.addonId params) in
  let b := parseInt (RouteParams.baseVersionId params) in
  let h := parseInt (RouteParams.headVersionId params) in
  lacks_path (getCompareInfoMap s a b h) path = true ->
  (exists call rest,
     trace (selectFile _getDiff params path s) =
       Dispatched (actions.updateSelectedPath path h)
       :: Dispatched (actions.beginFetchDiff a b h)
       :: GetDiffCalled call :: rest
     /\ GetDiffParams.path call = Some path)
  /\ getCompareInfoMap (afterBegin (afterSelectedPath s path h) a b h) a b h
     = Some (Some ∅)
  /\ (forall s' : VersionsState.t,
        final_state (selectFile _getDiff params path s) = Ok s' ->
        getCompareInfoMap s' a b h = Some None
        \/ exists m',
             getCompareInfoMap s' a b h = Some (Some m')
             /\ forall q : string,
                  is_Some (m' !! q) ->
                  exists v,
                    getVersionInfo s' h = Some (Loaded v)
                    /\ q = Version.selectedPath v).
Proof.
  intros a b h Hlack.
  pose proof (selectFile_run params path s Hlack) as Hrun. cbv zeta in Hrun.
  fold a b h in Hrun. rewrite Hrun. clear Hrun.
  set (s1 := afterSelectedPath s path h).
  set (p := FetchDiffParams.mk a b h (Some path)).
  assert (Hbegin : forall st : VersionsState.t,
            getCompareInfoMap (afterBegin st a b h) a b h = Some (Some ∅)).
  { intros st. unfold getCompareInfoMap, afterBegin. cbn. apply lookup_insert_eq. }
  split; [|split].
  - destruct (fetchDiff_trace_prefix _getDiff p s1) as (rest & Htrace).
    eexists. exists rest. unfold trace in *. cbn [fst]. rewrite Htrace.
    split; reflexivity.
  - apply Hbegin.
  - intros s' Hfinal. unfold final_state in Hfinal. cbn [snd] in Hfinal.
    rewrite (fetchDiff_run _getDiff p s1) in Hfinal. cbv zeta in Hfinal.
    cbn [FetchDiffParams.addonId FetchDiffParams.baseVersionId
         FetchDiffParams.headVersionId FetchDiffParams.path p] in Hfinal.
    destruct (_getDiff _) as [error|version]; cbn [snd] in Hfinal.
    + injection Hfinal as <-. left.
      unfold getCompareInfoMap, afterAbort. cbn. apply lookup_insert_eq.
    + set (st := afterVersionInfo (afterBegin s1 a b h) version) in *.
      destruct (reducer st (actions.loadDiff a b h version)) as [s3|] eqn:Hred;
        [|discriminate Hfinal].
      injection Hfinal as ->.
      assert (Hst : getCompareInfoMap st a b h = Some (Some ∅)) by apply Hbegin.
      right.
      destruct (getVersionInfo st h) as [[v|sel]|] eqn:Hinfo;
        try (cbn in Hred; rewrite Hinfo in Hred; discriminate Hred).
      destruct (find_entry (Version.entries v) (Version.selectedPath v))
        as [entry|] eqn:Hentry.
      * destruct (loadDiff_merges st a b h version v entry Hinfo Hentry)
          as (s'' & Hred' & Hmap & Hvi & _).
        rewrite Hred in Hred'. injection Hred' as <-.
        rewrite Hst in Hmap. cbn [spread] in Hmap.
        eexists. split; [exact Hmap|].
        intros q [d Hq]. exists v. split.
        -- unfold getVersionInfo. rewrite Hvi. exact Hinfo.
        -- destruct (decide (Version.selectedPath v = q)) as [Heq|Hne];
             [symmetry; exact Heq|].
           rewrite lookup_insert_ne in Hq by exact Hne.
           rewrite lookup_empty in Hq. discriminate Hq.
      * cbn in Hred. rewrite Hinfo, Hentry in Hred. injection Hred as <-.
        exists ∅. split; [exact Hst|].
        intros q [d Hq]. rewrite lookup_empty in Hq. discriminate Hq.
Qed.

End SelectFile.

Section SelectFileChecks.

(** The paths a.js and b.js are cached for 9999/1/2; c.js is selected and
    its diff arrives. *)
Lemma selectFile_fetch_resets_cache_witness :
  lacks_path
    (getCompareInfoMap Sample.storeABC (Num 9999) (Num 1) (Num 2)) "c.js" = true
  /\ exists call rest,
       trace (selectFile Sample.getDiff_c Sample.params_9999_1_2 "c.js"
                Sample.storeABC) =
         Dispatched (actions.updateSelectedPath "c.js" (Num 2))
         :: Dispatched (actions.beginFetchDiff (Num 9999) (Num 1) (Num 2))
         :: GetDiffCalled call :: rest
       /\ GetDiffParams.path call = Some "c.js".
Proof.
  assert (Hlack : lacks_path
                    (getCompareInfoMap Sample.storeABC (Num 9999) (Num 1) (Num 2))
                    "c.js" = true) by reflexivity.
  split; [exact Hlack|].
  exact (proj1 (selectFile_fetch_resets_cache Sample.getDiff_c
                  Sample.params_9999_1_2 "c.js" Sample.storeABC Hlack)).
Defined.

(** C2, as stated, fails: with a.js and b.js cached for 9999/1/2, selecting
    c.js runs a fetch that dispatches the begin action, and when it has
    ended the mapping of the key holds c.js alone: the diffs of a.js and
    b.js are gone. *)
Lemma selectFile_drops_siblings_counterexample :
  ~ scoped_fetch_keeps_cache Sample.getDiff_c Sample.params_9999_1_2 "c.js"
      Sample.storeABC
  /\ Dispatched (actions.beginFetchDiff (Num 9999) (Num 1) (Num 2))
       ∈ trace (selectFile Sample.getDiff_c Sample.params_9999_1_2 "c.js"
                  Sample.storeABC)
  /\ (exists s',
        final_state (selectFile Sample.getDiff_c Sample.params_9999_1_2 "c.js"
                       Sample.storeABC) = Ok s'
        /\ getCompareInfoMap s' (Num 9999) (Num 1) (Num 2)
           = Some (Some {[ "c.js" := Sample.info "c.js" ]})).
Proof.
  assert (Hbegin :
    Dispatched (actions.beginFetchDiff (Num 9999) (Num 1) (Num 2))
      ∈ trace (selectFile Sample.getDiff_c Sample.params_9999_1_2 "c.js"
                 Sample.storeABC)).
  { apply list_elem_of_further. apply list_elem_of_here. }
  split; [|split].
  - intros Hkeeps. destruct (Hkeeps eq_refl) as [Hno_begin _].
    exact (Hno_begin _ Hbegin eq_refl).
  - exact Hbegin.
  - eexists. split; [reflexivity|]. vm_compute. reflexivity.
Qed.

(** A path that names a member inherited from Object.prototype is found
    in every mapping, so selecting it never starts a fetch. *)
Example selectFile_constructor_no_fetch :
  lacks_path (getCompareInfoMap Sample.storeABC (Num 9999) (Num 1) (Num 2))
    "constructor" = false
  /\ onSelectFile (mapStateToProps Sample.storeABC Sample.params_9999_1_2)
       "constructor"
     = [store_dispatch
          (PlainAction (actions.updateSelectedPath "constructor" (Num 2)))].
Proof. split; reflexivity. Qed.

(** When the API fails, the run logs the error and ends with the abort
    action: the mapping of the key is null. *)
Example fetchDiff_error_nulls :
  exists s',
    mount Sample.getDiff_error Sample.params_9999_1_2 initialState
    = ([Dispatched (actions.beginFetchDiff (Num 9999) (Num 1) (Num 2));
        GetDiffCalled (GetDiffParams.mk (Num 9999) (Num 1) (Num 123) None);
        LoggedError "TODO: handle this error response: 500";
        Dispatched (actions.abortFetchDiff (Num 9999) (Num 1) (Num 2))],
       Ok (tt, s'))
    /\ getCompareInfoMap s' (Num 9999) (Num 1) (Num 2) = Some None.
Proof. eexists. split; reflexivity. Qed.

End SelectFileChecks.

(** * Further properties of the store and of the page *)

(** ** Identifiers as strings: cache keys and route parameters *)

Section Keys.

(** X1: the cache key determines the comparison: two triples of add-on,
    base and head ids give the same key exactly when they are the same
    triple, so two comparisons never share an entry of the diff cache. *)
Theorem getDiffsKey_inj (a b h a' b' h' : number) :
  getDiffsKey a b h = getDiffsKey a' b' h' <-> (a, b, h) = (a', b', h').
Proof.
  split.
  - intros Heq. apply getDiffsKey_eq_inv in Heq as (-> & -> & ->). reflexivity.
  - intros [= -> -> ->]. reflexivity.
Qed.

(** X2: the three cache actions of one comparison leave the cache entry
    of every other comparison as it was, whatever the selector answered for
    it: undefined, null or a mapping. *)
Theorem cache_actions_isolated
    (s s' : VersionsState.t) (action : actions.t) (a b h a' b' h' : number) :
  diffsKeyOf action = Some (getDiffsKey a' b' h') ->
  (a, b, h) <> (a', b', h') ->
  reducer s action = Ok s' ->
  getCompareInfoMap s' a b h = getCompareInfoMap s a b h.
Proof.
  intros Hkey Hne Hred. unfold getCompareInfoMap.
  apply (reducer_other_key s s' action _ Hred).
  rewrite Hkey. intros [= Heq].
  apply getDiffsKey_eq_inv in Heq as (-> & -> & ->). apply Hne. reflexivity.
Qed.

Lemma cache_actions_isolated_witness :
  getCompareInfoMap
    (afterBegin Sample.storeABC (Num 9999) (Num 1) (Num 3))
    (Num 9999) (Num 1) (Num 2)
  = Some (Some Sample.cacheAB).
Proof.
  rewrite (cache_actions_isolated Sample.storeABC
             (afterBegin Sample.storeABC (Num 9999) (Num 1) (Num 3))
             (actions.beginFetchDiff (Num 9999) (Num 1) (Num 3))
             (Num 9999) (Num 1) (Num 2) (Num 9999) (Num 1) (Num 3)
             eq_refl ltac:(discriminate) eq_refl).
  reflexivity.
Defined.

Lemma read_digits_pretty_N_go (x : N) :
  (0 < x)%N ->
  forall s : string,
  exists m : Z,
    forall acc : option Z,
      Js.read_digits (pretty_N_go x s) acc
      = Js.read_digits s (Some (default 0 acc * m + Z.of_N x)).
Proof.
  induction (N.lt_wf_0 x) as [x _ IH]. intros Hx s.
  rewrite pretty_N_go_step by exact Hx.
  assert (Hmod : (x `mod` 10 < 10)%N) by (apply N.mod_lt; lia).
  assert (Hsplit : Z.of_N x = 10 * Z.of_N (x `div` 10) + Z.of_N (x `mod` 10)).
  { pose proof (N.div_mod x 10 ltac:(lia)) as Hdm. lia. }
  destruct (decide (x `div` 10 = 0)%N) as [Hq|Hq].
  - exists 10. intros acc. rewrite Hq, pretty_N_go_0. cbn [Js.read_digits].
    rewrite (pretty_N_char_digit _ Hmod). f_equal. f_equal.
    rewrite Hsplit, Hq. cbn. lia.
  - destruct (IH (x `div` 10)%N) with (s := String (pretty_N_char (x `mod` 10)) s)
      as [m Hm]; [apply N.div_lt; lia|lia|].
    exists (10 * m). intros acc. rewrite Hm. cbn [Js.read_digits].
    rewrite (pretty_N_char_digit _ Hmod). cbn [default]. f_equal. f_equal.
    unfold id. rewrite Hsplit. ring.
Qed.

Lemma read_digits_pretty_N (x : N) : Js.read_digits (pretty x) None = Some (Z.of_N x).
Proof.
  unfold pretty, pretty_N. case_decide as Hx; [subst; reflexivity|].
  destruct (read_digits_pretty_N_go x ltac:(lia) "") as [m Hm].
  rewrite Hm. cbn. reflexivity.
Qed.

Lemma parseInt_digits (s : string) :
  all_chars is_digit s = true ->
  parseInt s = Js.number_of_option (Js.read_digits s None).
Proof.
  destruct s as [|c r]; [reflexivity|]. cbn [all_chars]. intros Hc.
  apply andb_prop in Hc as [Hc _].
  destruct c as [[] [] [] [] [] [] [] []]; try discriminate Hc; reflexivity.
Qed.

Lemma is_digit_pretty_N_char (d : N) : is_digit (pretty_N_char d) = true.
Proof.
  unfold is_digit. destruct (pretty_N_char_is_digit d) as [v ->]. reflexivity.
Qed.

Lemma parseInt_to_string (z : Z) : parseInt (Js.to_string (Num z)) = Num z.
Proof.
  destruct z as [|q|q]; [reflexivity| |].
  - change (Js.to_string (Num (Z.pos q))) with (pretty (N.pos q)).
    rewrite parseInt_digits
      by (apply pretty_N_all_chars, is_digit_pretty_N_char).
    rewrite read_digits_pretty_N. reflexivity.
  - change (Js.to_string (Num (Z.neg q))) with (String "-"%char (pretty (N.pos q))).
    unfold parseInt. cbn [Js.skip_white_space].
    change (Js.is_white_space "-"%char) with false. cbv iota.
    rewrite read_digits_pretty_N. reflexivity.
Qed.

(** X3: for integer ids that JavaScript numbers hold exactly (at most
    2^53 - 1 in absolute value), the decimal rendering of an id parses
    back to the id, so a page mounted on route parameters that are the
    renderings of such ids a, b and h issues one command: the router push
    of the swapped URL when b > h, and otherwise the dispatch of the fetch
    thunk made for exactly the ids a, b and h. *)
Theorem mount_on_rendered_ids (lang : string) (a b h : Z) (s : VersionsState.t) :
  Js.is_safe_integer a ->
  Js.is_safe_integer b ->
  Js.is_safe_integer h ->
  let params :=
    RouteParams.mk (Js.to_string (Num a)) (Js.to_string (Num b))
      (Js.to_string (Num h)) lang in
  parseInt (Js.to_string (Num a)) = Num a
  /\ parseInt (Js.to_string (Num b)) = Num b
  /\ parseInt (Js.to_string (Num h)) = Num h
  /\ componentDidMount (mapStateToProps s params) =
     if bool_decide (b > h) then
       [history_push
          ("/" +:+ lang +:+ "/compare/" +:+ Js.to_string (Num a) +:+ "/versions/"
             +:+ Js.to_string (Num h) +:+ "..." +:+ Js.to_string (Num b) +:+ "/")]
     else
       [store_dispatch
          (FetchDiffThunk (FetchDiffParams.mk (Num a) (Num b) (Num h) None))].
Proof.
  intros _ _ _. cbv zeta. repeat (split; [apply parseInt_to_string|]).
  unfold componentDidMount, loadData.
  cbn [mapStateToProps Props.params RouteParams.addonId RouteParams.baseVersionId
       RouteParams.headVersionId RouteParams.lang].
  rewrite !parseInt_to_string. cbn [Js.gt].
  destruct (bool_decide (b > h)); reflexivity.
Qed.

(** The ids 123456, 10 and 11, and the ids 123456, 11 and 10. *)
Lemma mount_on_rendered_ids_witness :
  Js.is_safe_integer 123456
  /\ Js.is_safe_integer 10
  /\ Js.is_safe_integer 11
  /\ componentDidMount
       (mapStateToProps initialState (RouteParams.mk "123456" "10" "11" "fr"))
     = [store_dispatch
          (FetchDiffThunk (FetchDiffParams.mk (Num 123456) (Num 10) (Num 11) None))]
  /\ componentDidMount
       (mapStateToProps initialState (RouteParams.mk "123456" "11" "10" "fr"))
     = [history_push "/fr/compare/123456/versions/10...11/"].
Proof.
  assert (Ha : Js.is_safe_integer 123456) by (apply Z.leb_le; reflexivity).
  assert (Hb : Js.is_safe_integer 10) by (apply Z.leb_le; reflexivity).
  assert (Hh : Js.is_safe_integer 11) by (apply Z.leb_le; reflexivity).
  split; [exact Ha|]. split; [exact Hb|]. split; [exact Hh|]. split.
  - exact (proj2 (proj2 (proj2
             (mount_on_rendered_ids "fr" 123456 10 11 initialState Ha Hb Hh)))).
  - exact (proj2 (proj2 (proj2
             (mount_on_rendered_ids "fr" 123456 11 10 initialState Ha Hh Hb)))).
Defined.

End Keys.

(** ** The reducer: versions, selections and version lists *)

Section Store.

Ltac ok_inv H := injection H as H; subst.

(** X4: the version lists of an add-on are the two channel filters of the
    payload: a version is in the listed (unlisted) list exactly when it is
    in the payload with that channel, both lists keep the order of the
    payload, and together they are a rearrangement of it, so no version
    is lost or repeated. *)
Theorem createVersionsMap_partition (versions : ExternalVersionsList) :
  let m := createVersionsMap versions in
  (forall v : VersionsListItem.t,
     v ∈ VersionsMap.listed m <-> v ∈ versions /\ VersionsListItem.channel v = listed)
  /\ (forall v : VersionsListItem.t,
        v ∈ VersionsMap.unlisted m
        <-> v ∈ versions /\ VersionsListItem.channel v = unlisted)
  /\ VersionsMap.listed m `sublist_of` versions
  /\ VersionsMap.unlisted m `sublist_of` versions
  /\ (VersionsMap.listed m ++ VersionsMap.unlisted m)%list ≡ₚ versions
  /\ (List.length (VersionsMap.listed m) + List.length (VersionsMap.unlisted m))%nat
     = List.length versions.
Proof.
  cbv zeta. unfold createVersionsMap. cbn [VersionsMap.listed VersionsMap.unlisted].
  assert (Hperm :
    (filter (fun version => VersionsListItem.channel version = listed) versions
     ++ filter (fun version => VersionsListItem.channel version = unlisted) versions)%list
    ≡ₚ versions).
  { rewrite <- (filter_app_complement
                  (fun version => VersionsListItem.channel version = listed) versions)
      at 3.
    f_equiv. apply reflexive_eq. apply list_filter_iff. intros v.
    destruct (VersionsListItem.channel v); split; congruence. }
  repeat split.
  - apply list_elem_of_filter in H as [_ H]. exact H.
  - apply list_elem_of_filter in H as [H _]. exact H.
  - intros [Hin Hch]. apply list_elem_of_filter. split; assumption.
  - apply list_elem_of_filter in H as [_ H]. exact H.
  - apply list_elem_of_filter in H as [H _]. exact H.
  - intros [Hin Hch]. apply list_elem_of_filter. split; assumption.
  - apply sublist_filter.
  - apply sublist_filter.
  - exact Hperm.
  - rewrite <- length_app. apply Permutation_length. exact Hperm.
Qed.

(** X5: a version-info action files the normalized version under its id,
    replacing whatever object was there, and touches nothing else: the
    other versions, the file contents, the diff cache and the version
    lists are as before. A selection made earlier for that version is
    overridden: the state is the one the action gives without it. *)
Theorem loadVersionInfo_replaces (s : VersionsState.t) (version : ExternalVersionAny) :
  exists s',
    reducer s (actions.loadVersionInfo version) = Ok s'
    /\ getVersionInfo s' (any_id version)
       = Some (Loaded (createInternalVersion version))
    /\ (forall k : VersionId,
          k <> any_id version -> getVersionInfo s' k = getVersionInfo s k)
    /\ VersionsState.versionFiles s' = VersionsState.versionFiles s
    /\ VersionsState.diffsByPath s' = VersionsState.diffsByPath s
    /\ VersionsState.byAddonId s' = VersionsState.byAddonId s
    /\ (forall selectedPath : string,
          reduce_all s
            [actions.updateSelectedPath selectedPath (any_id version);
             actions.loadVersionInfo version]
          = Ok s').
Proof.
  eexists. split; [reflexivity|]. repeat split.
  - unfold getVersionInfo. cbn. apply lookup_insert_eq.
  - intros k Hk. unfold getVersionInfo. cbn. apply lookup_insert_ne. congruence.
  - intros selectedPath. cbn. f_equal. unfold VersionsState.with_versionInfo. cbn.
    f_equal. apply insert_insert_eq.
Qed.

(** X6: selecting a path for a loaded version changes the selected path of
    that version and nothing else: its add-on, entries, id, review date
    and version string, the other versions, the file contents, the diff
    cache and the version lists are as before. The path is not checked
    against the entries. Selecting the path that is already selected
    returns an equal state, and of two selections in a row the second
    wins. *)
Theorem updateSelectedPath_loaded
    (s : VersionsState.t) (versionId : VersionId) (v : Version.t) (p : string) :
  getVersionInfo s versionId = Some (Loaded v) ->
  exists s',
    reducer s (actions.updateSelectedPath p versionId) = Ok s'
    /\ getVersionInfo s' versionId
       = Some (Loaded (Version.mk (Version.addon v) (Version.entries v)
                         (Version.id v) (Version.reviewed v) p (Version.version v)))
    /\ (forall k : VersionId,
          k <> versionId -> getVersionInfo s' k = getVersionInfo s k)
    /\ VersionsState.versionFiles s' = VersionsState.versionFiles s
    /\ VersionsState.diffsByPath s' = VersionsState.diffsByPath s
    /\ VersionsState.byAddonId s' = VersionsState.byAddonId s
    /\ (Version.selectedPath v = p -> s' = s)
    /\ (forall q : string,
          reduce_all s
            [actions.updateSelectedPath q versionId;
             actions.updateSelectedPath p versionId]
          = Ok s').
Proof.
  intros Hinfo. unfold getVersionInfo in Hinfo.
  eexists. split; [reflexivity|]. repeat split.
  - unfold getVersionInfo. cbn. rewrite lookup_insert_eq, Hinfo. reflexivity.
  - intros k Hk. unfold getVersionInfo. cbn. apply lookup_insert_ne. congruence.
  - intros Hsame. destruct s as [ba dp vi vf]. cbn in *.
    unfold VersionsState.with_versionInfo. cbn. f_equal.
    rewrite Hinfo. apply insert_id. rewrite Hinfo. f_equal. f_equal.
    destruct v. cbn in *. subst. reflexivity.
  - intros q. cbn. f_equal. unfold VersionsState.with_versionInfo. cbn. f_equal.
    rewrite lookup_insert_eq, Hinfo, insert_insert_eq. reflexivity.
Qed.

Lemma updateSelectedPath_loaded_witness :
  getVersionInfo Sample.storeABC (Num 2) = Some (Loaded Sample.versionABC)
  /\ exists s',
       reducer Sample.storeABC (actions.updateSelectedPath "a.js" (Num 2)) = Ok s'
       /\ getVersionInfo s' (Num 2)
          = Some (Loaded (Version.with_selectedPath Sample.versionABC "a.js"))
       /\ VersionsState.diffsByPath s' = VersionsState.diffsByPath Sample.storeABC.
Proof.
  assert (Hinfo : getVersionInfo Sample.storeABC (Num 2)
                  = Some (Loaded Sample.versionABC)) by reflexivity.
  split; [exact Hinfo|].
  destruct (updateSelectedPath_loaded Sample.storeABC (Num 2) Sample.versionABC
              "a.js" Hinfo)
    as (s' & Hred & Hsel & _ & _ & Hcache & _).
  exists s'. repeat split; assumption.
Defined.

(** X7: selecting a path for a version that is not in the store leaves an
    object that has a selected path and no entries. From then on the
    version counts as present: a diff-loaded action with that head version
    raises, the file selector raises as soon as a file of that version is
    stored, and only a version-info action for that id repairs it. *)
Theorem updateSelectedPath_unknown_version
    (s : VersionsState.t) (versionId : VersionId) (p : string) :
  getVersionInfo s versionId = None ->
  exists s',
    reducer s (actions.updateSelectedPath p versionId) = Ok s'
    /\ getVersionInfo s' versionId = Some (SelectedPathOnly p)
    /\ (forall (a b : number) (version : ExternalVersionWithDiff),
          reducer s' (actions.loadDiff a b versionId version) = TypeError)
    /\ (forall (path : string) (version : ExternalVersionWithContent),
          ExternalVersion.id version = versionId ->
          exists s'',
            reducer s' (actions.loadVersionFile path version) = Ok s''
            /\ getVersionFile s'' versionId path = TypeError)
    /\ (forall version : ExternalVersionAny,
          any_id version = versionId ->
          exists s'',
            reducer s' (actions.loadVersionInfo version) = Ok s''
            /\ getVersionInfo s'' versionId
               = Some (Loaded (createInternalVersion version))).
Proof.
  intros Hinfo. unfold getVersionInfo in Hinfo.
  eexists. split; [reflexivity|].
  assert (Hobj : forall vi : gmap number VersionObject,
            <[versionId := SelectedPathOnly p]> vi !! versionId
            = Some (SelectedPathOnly p)) by (intros; apply lookup_insert_eq).
  rewrite Hinfo. repeat split.
  - unfold getVersionInfo. cbn. apply Hobj.
  - intros a b version. cbn. unfold getVersionInfo. cbn. rewrite Hobj. reflexivity.
  - intros path version <-. eexists. split; [reflexivity|].
    unfold getVersionFile, getVersionInfo, getVersionFiles. cbn.
    rewrite Hobj, lookup_insert_eq. reflexivity.
  - intros version <-. eexists. split; [reflexivity|].
    unfold getVersionInfo. cbn. apply lookup_insert_eq.
Qed.

Lemma updateSelectedPath_unknown_version_witness :
  getVersionInfo initialState (Num 2) = None
  /\ exists s',
       reducer initialState (actions.updateSelectedPath "a.js" (Num 2)) = Ok s'
       /\ getVersionInfo s' (Num 2) = Some (SelectedPathOnly "a.js")
       /\ reducer s'
            (actions.loadDiff (Num 9999) (Num 1) (Num 2)
               (Sample.versionWithDiff 2 ["a.js"] "a.js"))
          = TypeError.
Proof.
  split; [reflexivity|].
  destruct (updateSelectedPath_unknown_version initialState (Num 2) "a.js" eq_refl)
    as (s' & Hred & Hobj & Hraise & _).
  exists s'. split; [exact Hred|]. split; [exact Hobj|]. apply Hraise.
Defined.

Lemma reducer_keeps_ids (s s' : VersionsState.t) (action : actions.t) :
  (forall (k : VersionId) (v : Version.t),
     getVersionInfo s k = Some (Loaded v) -> Version.id v = k) ->
  reducer s action = Ok s' ->
  forall (k : VersionId) (v : Version.t),
    getVersionInfo s' k = Some (Loaded v) -> Version.id v = k.
Proof.
  unfold getVersionInfo. intros Hinv Hred k v Hk.
  destruct action; cbn in Hred;
    try (ok_inv Hred; cbn in Hk; apply Hinv; exact Hk).
  - ok_inv Hred. cbn in Hk.
    destruct (decide (any_id version = k)) as [<-|Hne].
    + rewrite lookup_insert_eq in Hk. injection Hk as <-. reflexivity.
    + rewrite lookup_insert_ne in Hk by exact Hne. apply Hinv. exact Hk.
  - ok_inv Hred. cbn in Hk.
    destruct (decide (versionId = k)) as [<-|Hne].
    + rewrite lookup_insert_eq in Hk.
      destruct (VersionsState.versionInfo s !! versionId) as [[v0|]|] eqn:Hold;
        try discriminate Hk.
      injection Hk as <-. cbn. apply Hinv. exact Hold.
    + rewrite lookup_insert_ne in Hk by exact Hne. apply Hinv. exact Hk.
  - destruct (getVersionInfo s headVersionId) as [[v0|]|]; try discriminate Hred.
    destruct (find_entry _ _); ok_inv Hred; cbn in Hk; apply Hinv; exact Hk.
Qed.

(** X8: in every store reached from the initial one by actions of this
    reducer, a fully loaded version is filed under its own id: looking up
    an id never answers the metadata of another version. *)
Theorem loaded_versions_filed_under_own_id
    (l : list actions.t) (s : VersionsState.t) (k : VersionId) (v : Version.t) :
  reduce_all initialState l = Ok s ->
  getVersionInfo s k = Some (Loaded v) ->
  Version.id v = k.
Proof.
  assert (Hgen : forall (l : list actions.t) (s0 s : VersionsState.t),
            (forall (k : VersionId) (v : Version.t),
               getVersionInfo s0 k = Some (Loaded v) -> Version.id v = k) ->
            reduce_all s0 l = Ok s ->
            forall (k : VersionId) (v : Version.t),
              getVersionInfo s k = Some (Loaded v) -> Version.id v = k).
  { clear. induction l as [|action rest IH]; intros s0 s Hinv Hrun; cbn in Hrun.
    - ok_inv Hrun. exact Hinv.
    - destruct (reducer s0 action) as [s1|] eqn:Hstep; [|discriminate Hrun].
      apply (IH s1 s); [|exact Hrun].
      apply (reducer_keeps_ids s0 s1 action Hinv Hstep). }
  intros Hrun. revert k v. apply (Hgen l initialState s); [|exact Hrun].
  intros k v Hk. discriminate Hk.
Qed.

Lemma loaded_versions_filed_under_own_id_witness :
  exists s,
    reduce_all initialState
      [actions.loadVersionInfo
         (WithDiff (Sample.versionWithDiff 2 ["a.js"; "b.js"; "c.js"] "c.js"));
       actions.updateSelectedPath "a.js" (Num 2)]
    = Ok s
    /\ getVersionInfo s (Num 2)
       = Some (Loaded (Version.with_selectedPath Sample.versionABC "a.js"))
    /\ Version.id (Version.with_selectedPath Sample.versionABC "a.js") = Num 2.
Proof.
  eexists. split; [reflexivity|].
  match goal with
  | |- getVersionInfo ?st _ = _ /\ _ =>
      assert (Hrun :
        reduce_all initialState
          [actions.loadVersionInfo
             (WithDiff (Sample.versionWithDiff 2 ["a.js"; "b.js"; "c.js"] "c.js"));
           actions.updateSelectedPath "a.js" (Num 2)]
        = Ok st) by reflexivity;
      assert (Hinfo :
        getVersionInfo st (Num 2)
        = Some (Loaded (Version.with_selectedPath Sample.versionABC "a.js")))
        by reflexivity
  end.
  split; [exact Hinfo|].
  exact (loaded_versions_filed_under_own_id _ _ _ _ Hrun Hinfo).
Defined.

(** X9: each slice of the store has its own writers. An action that
    returns changes the file contents only if it is a file-content action,
    the version lists only if it is a versions-list action, the version
    metadata only if it is a version-info or a selected-path action, and
    the diff cache only if it is a begin, abort or diff-loaded action. *)
Theorem reducer_frame (s s' : VersionsState.t) (action : actions.t) :
  reducer s action = Ok s' ->
  (VersionsState.versionFiles s' = VersionsState.versionFiles s
   \/ exists path version, action = actions.loadVersionFile path version)
  /\ (VersionsState.byAddonId s' = VersionsState.byAddonId s
      \/ exists addonId versions, action = actions.loadVersionsList addonId versions)
  /\ (VersionsState.versionInfo s' = VersionsState.versionInfo s
      \/ (exists version, action = actions.loadVersionInfo version)
      \/ (exists selectedPath versionId,
            action = actions.updateSelectedPath selectedPath versionId))
  /\ (VersionsState.diffsByPath s' = VersionsState.diffsByPath s
      \/ is_Some (diffsKeyOf action)).
Proof.
  intros Hred. destruct action; cbn in Hred.
  8: { ok_inv Hred. repeat split; left; reflexivity. }
  7: { destruct (getVersionInfo s headVersionId) as [[v0|]|]; try discriminate Hred.
       destruct (find_entry _ _); ok_inv Hred;
         (repeat split; [left; reflexivity..|right; eexists; reflexivity]). }
  all: ok_inv Hred; repeat split;
    first [left; reflexivity
          | right; eexists; eexists; reflexivity
          | right; left; eexists; reflexivity
          | right; right; eexists; eexists; reflexivity
          | right; eexists; reflexivity].
Qed.

Lemma reducer_frame_witness :
  reducer Sample.storeABC (actions.abortFetchDiff (Num 9999) (Num 1) (Num 2))
  = Ok (afterAbort Sample.storeABC (Num 9999) (Num 1) (Num 2))
  /\ VersionsState.versionInfo (afterAbort Sample.storeABC (Num 9999) (Num 1) (Num 2))
     = VersionsState.versionInfo Sample.storeABC.
Proof.
  split; [reflexivity|].
  destruct (reducer_frame Sample.storeABC
              (afterAbort Sample.storeABC (Num 9999) (Num 1) (Num 2))
              (actions.abortFetchDiff (Num 9999) (Num 1) (Num 2)) eq_refl)
    as (_ & _ & [Hinfo|[[v Hv]|(p & k & Hv)]] & _);
    [exact Hinfo|discriminate Hv|discriminate Hv].
Defined.

End Store.

(** ** Fetching versions, files and version lists *)

Section VersionThunks.

Variable _getVersion : GetVersionParams.t -> ContentResponse.
Variable _getVersionsList : number -> VersionsListResponse.

Lemma lift_dispatch_ok (s s' : VersionsState.t) (action : actions.t) :
  reducer s action = Ok s' ->
  lift (dispatch action) s = ([StoreEvent (Dispatched action)], Ok (tt, s')).
Proof. intros Hred. unfold lift, dispatch. rewrite Hred. reflexivity. Qed.

Lemma getVersionFile_found
    (s : VersionsState.t) (versionId : VersionId) (path : string)
    (v : Version.t) (entry : VersionEntry.t)
    (files : gmap string InternalVersionFile.t) (f : InternalVersionFile.t) :
  getVersionInfo s versionId = Some (Loaded v) ->
  find_entry (Version.entries v) path = Some entry ->
  getVersionFiles s versionId = Some files ->
  files !! path = Some f ->
  getVersionFile s versionId path
  = Ok (Some
          (VersionFile.mk
             (InternalVersionFile.content f) (InternalVersionFile.created f)
             (VersionEntry.filename entry) (InternalVersionFile.id f)
             (VersionEntry.mimeType entry) (VersionEntry.sha256 entry)
             (InternalVersionFile.size f) (VersionEntry.type entry)
             (Version.version v))).
Proof.
  intros Hinfo Hentry Hfiles Hf. unfold getVersionFile.
  rewrite Hinfo, Hfiles, Hentry, (get_own files path f Hf). reflexivity.
Qed.

Lemma fetchVersion_run (p : FetchVersionParams.t) (s : VersionsState.t) :
  let call :=
    GetVersionParams.mk (FetchVersionParams.addonId p)
      (FetchVersionParams.versionId p) None in
  fetchVersion _getVersion p s =
    match _getVersion call with
    | ContentError error =>
        ([GetVersionCalled call;
          StoreEvent (LoggedError ("TODO: handle this error response: " +:+ error))],
         Ok (tt, s))
    | ContentVersion response =>
        let path :=
          PartialExternalVersionFile.selected_file
            (ExternalVersionFileWithContent.partial (ExternalVersion.file response)) in
        ([GetVersionCalled call;
          StoreEvent (Dispatched (actions.loadVersionInfo (WithContent response)));
          StoreEvent (Dispatched (actions.loadVersionFile path response))],
         match reduce_all s
                 [actions.loadVersionInfo (WithContent response);
                  actions.loadVersionFile path response] with
         | Ok s' => Ok (tt, s')
         | TypeError => TypeError
         end)
    end.
Proof.
  cbv zeta. unfold fetchVersion, api_bind, call_getVersion.
  destruct (_getVersion _) as [error|response]; reflexivity.
Qed.

Lemma fetchVersionFile_run (p : FetchVersionFileParams.t) (s : VersionsState.t) :
  let path := FetchVersionFileParams.path p in
  let versionId := FetchVersionFileParams.versionId p in
  let call :=
    GetVersionParams.mk (FetchVersionFileParams.addonId p) versionId (Some path) in
  fetchVersionFile _getVersion p s =
    match _getVersion call with
    | ContentError error =>
        ([StoreEvent (Dispatched (actions.updateSelectedPath path versionId));
          GetVersionCalled call;
          StoreEvent (LoggedError ("TODO: handle this error response: " +:+ error))],
         Ok (tt, afterSelectedPath s path versionId))
    | ContentVersion response =>
        ([StoreEvent (Dispatched (actions.updateSelectedPath path versionId));
          GetVersionCalled call;
          StoreEvent (Dispatched (actions.loadVersionFile path response))],
         match reducer (afterSelectedPath s path versionId)
                 (actions.loadVersionFile path response) with
         | Ok s' => Ok (tt, s')
         | TypeError => TypeError
         end)
    end.
Proof.
  cbv zeta. unfold fetchVersionFile, api_bind, call_getVersion.
  rewrite (lift_dispatch_ok s
             (afterSelectedPath s (FetchVersionFileParams.path p)
                (FetchVersionFileParams.versionId p))
             (actions.updateSelectedPath (FetchVersionFileParams.path p)
                (FetchVersionFileParams.versionId p)) eq_refl).
  cbv beta iota.
  destruct (_getVersion _) as [error|response]; reflexivity.
Qed.

(** X10: [fetchVersion] asks the API for exactly the add-on and version it
    was given, with no path. When the API fails the store is unchanged and
    only the error is logged. When it answers, the version is filed under
    the id of the answer with the selected path of the answer, and the
    content of that selected file can be read back through
    [getVersionFile] as soon as the answer lists the file among its
    entries: the result joins the content, creation date, id and size of
    the answer's file with the name, type, hash and MIME type of the
    entry. *)
Theorem fetchVersion_stores_selected_file
    (p : FetchVersionParams.t) (s : VersionsState.t) :
  let call :=
    GetVersionParams.mk (FetchVersionParams.addonId p)
      (FetchVersionParams.versionId p) None in
  (exists rest, fst (fetchVersion _getVersion p s) = GetVersionCalled call :: rest)
  /\ (forall error : string,
        _getVersion call = ContentError error ->
        snd (fetchVersion _getVersion p s) = Ok (tt, s))
  /\ (forall (response : ExternalVersionWithContent) (entry : VersionEntry.t),
        let file := ExternalVersion.file response in
        let path :=
          PartialExternalVersionFile.selected_file
            (ExternalVersionFileWithContent.partial file) in
        _getVersion call = ContentVersion response ->
        find_entry (Version.entries (createInternalVersion (WithContent response)))
          path = Some entry ->
        exists s',
          snd (fetchVersion _getVersion p s) = Ok (tt, s')
          /\ getVersionInfo s' (ExternalVersion.id response)
             = Some (Loaded (createInternalVersion (WithContent response)))
          /\ getVersionFile s' (ExternalVersion.id response) path
             = Ok (Some
                     (VersionFile.mk
                        (ExternalVersionFileWithContent.content file)
                        (PartialExternalVersionFile.created
                           (ExternalVersionFileWithContent.partial file))
                        (VersionEntry.filename entry)
                        (PartialExternalVersionFile.id
                           (ExternalVersionFileWithContent.partial file))
                        (VersionEntry.mimeType entry)
                        (VersionEntry.sha256 entry)
                        (PartialExternalVersionFile.size
                           (ExternalVersionFileWithContent.partial file))
                        (VersionEntry.type entry)
                        (ExternalVersion.version response)))
          /\ VersionsState.diffsByPath s' = VersionsState.diffsByPath s).
Proof.
  cbv zeta. rewrite fetchVersion_run. cbv zeta. split; [|split].
  - destruct (_getVersion _); eexists; reflexivity.
  - intros error ->. reflexivity.
  - intros response entry -> Hentry. eexists. split; [reflexivity|].
    split; [|split].
    + unfold getVersionInfo. cbn. apply lookup_insert_eq.
    + eapply (getVersionFile_found _ _ _
                (createInternalVersion (WithContent response)) entry _
                (createInternalVersionFile (ExternalVersion.file response)));
        [unfold getVersionInfo; cbn; apply lookup_insert_eq
        |exact Hentry
        |unfold getVersionFiles; cbn; apply lookup_insert_eq
        |apply lookup_insert_eq].
    + reflexivity.
Qed.

(** X11: [fetchVersionFile] first records the selection and then asks the
    API for that path. The selection is not undone when the API fails: the
    store then differs from the one before by the selected path alone.
    When the API answers for the requested version, and that version is
    loaded with an entry for the path, the content of the answer can be
    read back through [getVersionFile] and the path is the selected one.
    When the requested version was never loaded, the file is stored all
    the same and [getVersionFile] raises for it. *)
Theorem fetchVersionFile_selects_then_stores
    (p : FetchVersionFileParams.t) (s : VersionsState.t) :
  let path := FetchVersionFileParams.path p in
  let versionId := FetchVersionFileParams.versionId p in
  let call :=
    GetVersionParams.mk (FetchVersionFileParams.addonId p) versionId (Some path) in
  (exists rest,
     fst (fetchVersionFile _getVersion p s) =
       StoreEvent (Dispatched (actions.updateSelectedPath path versionId))
       :: GetVersionCalled call :: rest)
  /\ (forall error : string,
        _getVersion call = ContentError error ->
        exists s',
          reducer s (actions.updateSelectedPath path versionId) = Ok s'
          /\ snd (fetchVersionFile _getVersion p s) = Ok (tt, s'))
  /\ (forall (response : ExternalVersionWithContent) (v : Version.t)
             (entry : VersionEntry.t),
        let file := ExternalVersion.file response in
        _getVersion call = ContentVersion response ->
        ExternalVersion.id response = versionId ->
        getVersionInfo s versionId = Some (Loaded v) ->
        find_entry (Version.entries v) path = Some entry ->
        exists s',
          snd (fetchVersionFile _getVersion p s) = Ok (tt, s')
          /\ getVersionInfo s' versionId
             = Some (Loaded (Version.with_selectedPath v path))
          /\ getVersionFile s' versionId path
             = Ok (Some
                     (VersionFile.mk
                        (ExternalVersionFileWithContent.content file)
                        (PartialExternalVersionFile.created
                           (ExternalVersionFileWithContent.partial file))
                        (VersionEntry.filename entry)
                        (PartialExternalVersionFile.id
                           (ExternalVersionFileWithContent.partial file))
                        (VersionEntry.mimeType entry)
                        (VersionEntry.sha256 entry)
                        (PartialExternalVersionFile.size
                           (ExternalVersionFileWithContent.partial file))
                        (VersionEntry.type entry)
                        (Version.version v))))
  /\ (forall response : ExternalVersionWithContent,
        _getVersion call = ContentVersion response ->
        ExternalVersion.id response = versionId ->
        getVersionInfo s versionId = None ->
        exists s',
          snd (fetchVersionFile _getVersion p s) = Ok (tt, s')
          /\ getVersionFile s' versionId path = TypeError).
Proof.
  cbv zeta. rewrite fetchVersionFile_run. cbv zeta.
  set (path := FetchVersionFileParams.path p).
  set (versionId := FetchVersionFileParams.versionId p).
  split; [|split; [|split]].
  - destruct (_getVersion _); eexists; reflexivity.
  - intros error ->. eexists. split; reflexivity.
  - intros response v entry -> Hid Hinfo Hentry. unfold getVersionInfo in Hinfo.
    eexists. split; [reflexivity|].
    assert (Hinfo' :
      getVersionInfo
        (VersionsState.with_versionFiles (afterSelectedPath s path versionId)
           (<[ExternalVersion.id response :=
                <[path := createInternalVersionFile (ExternalVersion.file response)]>
                  (default ∅
                     (VersionsState.versionFiles (afterSelectedPath s path versionId)
                        !! ExternalVersion.id response))]>
              (VersionsState.versionFiles (afterSelectedPath s path versionId))))
        versionId
      = Some (Loaded (Version.with_selectedPath v path))).
    { unfold getVersionInfo, afterSelectedPath. cbn.
      rewrite lookup_insert_eq, Hinfo. reflexivity. }
    split; [exact Hinfo'|].
    eapply (getVersionFile_found _ _ _ (Version.with_selectedPath v path) entry _
              (createInternalVersionFile (ExternalVersion.file response)));
      [exact Hinfo'
      |exact Hentry
      |unfold getVersionFiles; cbn; rewrite Hid; apply lookup_insert_eq
      |apply lookup_insert_eq].
  - intros response -> Hid Hinfo. unfold getVersionInfo in Hinfo.
    eexists. split; [reflexivity|].
    unfold getVersionFile, getVersionInfo, getVersionFiles, afterSelectedPath. cbn.
    rewrite Hid, !lookup_insert_eq, Hinfo. reflexivity.
Qed.

Lemma fetchVersionsList_run (addonId : number) (s : VersionsState.t) :
  fetchVersionsList _getVersionsList addonId s =
    match _getVersionsList addonId with
    | ListError error =>
        ([GetVersionsListCalled addonId;
          StoreEvent (LoggedError ("TODO: handle this error response: " +:+ error))],
         Ok (tt, s))
    | ListVersions versions =>
        ([GetVersionsListCalled addonId;
          StoreEvent (Dispatched (actions.loadVersionsList addonId versions))],
         Ok (tt,
             VersionsState.with_byAddonId s
               (<[addonId := createVersionsMap versions]>
                  (VersionsState.byAddonId s))))
    end.
Proof.
  unfold fetchVersionsList, api_bind, call_getVersionsList.
  destruct (_getVersionsList _) as [error|versions]; reflexivity.
Qed.

(** X12: [fetchVersionsList] asks the API for the add-on it was given. An
    answer replaces the version lists of that add-on by the two channel
    filters of the answer and leaves the lists of every other add-on, the
    versions, the files and the diff cache as they were; a failure leaves
    the whole store as it was. *)
Theorem fetchVersionsList_replaces_lists (addonId : number) (s : VersionsState.t) :
  (exists rest,
     fst (fetchVersionsList _getVersionsList addonId s)
     = GetVersionsListCalled addonId :: rest)
  /\ (forall error : string,
        _getVersionsList addonId = ListError error ->
        snd (fetchVersionsList _getVersionsList addonId s) = Ok (tt, s))
  /\ (forall versions : ExternalVersionsList,
        _getVersionsList addonId = ListVersions versions ->
        exists s',
          snd (fetchVersionsList _getVersionsList addonId s) = Ok (tt, s')
          /\ VersionsState.byAddonId s' !! addonId
             = Some
                 (VersionsMap.mk
                    (filter (fun v => VersionsListItem.channel v = listed) versions)
                    (filter (fun v => VersionsListItem.channel v = unlisted) versions))
          /\ (forall other : number,
                other <> addonId ->
                VersionsState.byAddonId s' !! other
                = VersionsState.byAddonId s !! other)
          /\ VersionsState.versionInfo s' = VersionsState.versionInfo s
          /\ VersionsState.versionFiles s' = VersionsState.versionFiles s
          /\ VersionsState.diffsByPath s' = VersionsState.diffsByPath s).
Proof.
  rewrite fetchVersionsList_run. split; [|split].
  - destruct (_getVersionsList _); eexists; reflexivity.
  - intros error ->. reflexivity.
  - intros versions ->. eexists. split; [reflexivity|]. repeat split.
    + cbn. apply lookup_insert_eq.
    + intros other Hne. cbn. apply lookup_insert_ne. congruence.
Qed.

End VersionThunks.

Section VersionThunkChecks.

(** Version 2 is fetched into the empty store; its selected file c.js is
    then read back. *)
Lemma fetchVersion_stores_selected_file_witness :
  exists s',
    snd (fetchVersion SampleApi.getVersion_ok
           (FetchVersionParams.mk (Num 9999) (Num 2)) initialState)
    = Ok (tt, s')
    /\ getVersionFile s' (Num 2) "c.js"
       = Ok (Some
               (VersionFile.mk "{}" "2017-08-15T12:01:13Z" "c.js" (Num 789)
                  "application/json" "some-sha" 123 text "1.0")).
Proof.
  destruct (fetchVersion_stores_selected_file SampleApi.getVersion_ok
              (FetchVersionParams.mk (Num 9999) (Num 2)) initialState)
    as (_ & _ & Hok).
  destruct (Hok (Sample.versionWithContent 2 ["a.js"; "b.js"; "c.js"] "c.js")
              (createInternalVersionEntry (Sample.entry "c.js")) eq_refl eq_refl)
    as (s' & Hrun & _ & Hfile & _).
  exists s'. split; [exact Hrun|exact Hfile].
Defined.

(** The file a.js of an unknown version 2 is fetched into the empty store:
    reading it back raises. The same fetch against a failing API leaves the
    selection behind. *)
Lemma fetchVersionFile_selects_then_stores_witness :
  (exists s',
     snd (fetchVersionFile SampleApi.getVersion_ok
            (FetchVersionFileParams.mk (Num 9999) "a.js" (Num 2)) initialState)
     = Ok (tt, s')
     /\ getVersionFile s' (Num 2) "a.js" = TypeError)
  /\ (exists s',
        snd (fetchVersionFile SampleApi.getVersion_error
               (FetchVersionFileParams.mk (Num 9999) "a.js" (Num 2)) initialState)
        = Ok (tt, s')
        /\ getVersionInfo s' (Num 2) = Some (SelectedPathOnly "a.js")).
Proof.
  split.
  - destruct (fetchVersionFile_selects_then_stores SampleApi.getVersion_ok
                (FetchVersionFileParams.mk (Num 9999) "a.js" (Num 2)) initialState)
      as (_ & _ & _ & Hunknown).
    exact (Hunknown (Sample.versionWithContent 2 ["a.js"; "b.js"; "c.js"] "a.js")
             eq_refl eq_refl eq_refl).
  - destruct (fetchVersionFile_selects_then_stores SampleApi.getVersion_error
                (FetchVersionFileParams.mk (Num 9999) "a.js" (Num 2)) initialState)
      as (_ & Herr & _).
    destruct (Herr "404" eq_refl) as (s' & Hred & Hrun).
    exists s'. split; [exact Hrun|].
    injection Hred as <-. reflexivity.
Defined.

Lemma fetchVersionsList_replaces_lists_witness :
  exists s',
    snd (fetchVersionsList SampleApi.getVersionsList_ok (Num 9999) initialState)
    = Ok (tt, s')
    /\ VersionsState.byAddonId s' !! Num 9999
       = Some
           (VersionsMap.mk
              [SampleApi.item listed 3; SampleApi.item listed 1]
              [SampleApi.item unlisted 2]).
Proof.
  destruct (fetchVersionsList_replaces_lists SampleApi.getVersionsList_ok
              (Num 9999) initialState)
    as (_ & _ & Hok).
  destruct (Hok _ eq_refl) as (s' & Hrun & Hlists & _).
  exists s'. split; [exact Hrun|exact Hlists].
Defined.

End VersionThunkChecks.

(** ** What the page shows, and what its events do *)

Section PageMore.

Variable _getDiff : GetDiffParams.t -> DiffResponse.

(** X13: what [render] returns is decided by the props alone. Only the
    loading message is rendered while the props hold no version object.
    Otherwise the file tree gets that object and the version chooser the
    add-on id; the error paragraph is there exactly when the mapping of the
    comparison is null, and then the diff pane is the loading message, not
    a diff. The diff pane is the diff view of an entry exactly when the
    mapping holds an entry for the selected path of the version object; it
    is a diff view without diffs and MIME type exactly when the mapping
    holds no such entry and the selected path is the name of a member
    inherited from Object.prototype; in every other case it is the loading
    message. *)
Theorem render_decision (props : Props.t) :
  match render props with
  | LoadingVersion => Props.version props = None
  | ComparePage version addonId errorShown pane =>
      Props.version props = Some version
      /\ addonId = Props.addonId props
      /\ (errorShown = true <-> Props.compareInfoMap props = Some None)
      /\ (errorShown = true -> pane = LoadingDiff)
      /\ (forall (diffs : list DiffInfo.t) (mimeType : string),
            pane = DiffView diffs mimeType
            <-> exists (m : CompareInfoMap) (info : CompareInfo.t),
                  Props.compareInfoMap props = Some (Some m)
                  /\ m !! objectSelectedPath version = Some info
                  /\ diffs = CompareInfo.diffs info
                  /\ mimeType = CompareInfo.mimeType info)
      /\ (pane = DiffViewOfUndefined
          <-> exists m : CompareInfoMap,
                Props.compareInfoMap props = Some (Some m)
                /\ m !! objectSelectedPath version = None
                /\ objectSelectedPath version ∈ Js.Object_prototype_members)
      /\ (pane = LoadingDiff
          <-> forall m : CompareInfoMap,
                Props.compareInfoMap props = Some (Some m) ->
                m !! objectSelectedPath version = None
                /\ objectSelectedPath version ∉ Js.Object_prototype_members)
  end.
Proof.
  unfold render. destruct (Props.version props) as [version|]; [|reflexivity].
  split; [reflexivity|]. split; [reflexivity|].
  destruct (Props.compareInfoMap props) as [[m|]|].
  - unfold Js.get.
    destruct (m !! objectSelectedPath version) as [info|] eqn:Hinfo;
      [|case_bool_decide as Hproto].
    + split; [split; discriminate|]. split; [discriminate|]. split; [|split].
      * intros diffs mimeType. split.
        -- intros [= <- <-]. exists m, info. repeat split. exact Hinfo.
        -- intros (m' & info' & Hm & Hinfo' & -> & ->). injection Hm as <-.
           rewrite Hinfo in Hinfo'. injection Hinfo' as <-. reflexivity.
      * split; [discriminate|].
        intros (m' & Hm & Hnone & _). injection Hm as <-.
        rewrite Hinfo in Hnone. discriminate Hnone.
      * split; [discriminate|].
        intros Hall. destruct (Hall m eq_refl) as [Hnone _].
        rewrite Hinfo in Hnone. discriminate Hnone.
    + split; [split; discriminate|]. split; [discriminate|]. split; [|split].
      * intros diffs mimeType. split; [discriminate|].
        intros (m' & info' & Hm & Hinfo' & _). injection Hm as <-.
        rewrite Hinfo in Hinfo'. discriminate Hinfo'.
      * split; [|reflexivity]. intros _. exists m.
        split; [reflexivity|]. split; [exact Hinfo|exact Hproto].
      * split; [discriminate|].
        intros Hall. destruct (Hall m eq_refl) as [_ Hnot]. contradiction.
    + split; [split; discriminate|]. split; [discriminate|]. split; [|split].
      * intros diffs mimeType. split; [discriminate|].
        intros (m' & info' & Hm & Hinfo' & _). injection Hm as <-.
        rewrite Hinfo in Hinfo'. discriminate Hinfo'.
      * split; [discriminate|].
        intros (m' & Hm & _ & Hin). injection Hm as <-. contradiction.
      * split; [|reflexivity]. intros _ m' Hm. injection Hm as <-.
        split; [exact Hinfo|exact Hproto].
  - split; [split; reflexivity|]. split; [reflexivity|]. split; [|split].
    + intros diffs mimeType. split; [discriminate|].
      intros (m' & info' & Hm & _). discriminate Hm.
    + split; [discriminate|]. intros (m' & Hm & _). discriminate Hm.
    + split; [|reflexivity]. intros _ m' Hm. discriminate Hm.
  - split; [split; discriminate|]. split; [discriminate|]. split; [|split].
    + intros diffs mimeType. split; [discriminate|].
      intros (m' & info' & Hm & _). discriminate Hm.
    + split; [discriminate|]. intros (m' & Hm & _). discriminate Hm.
    + split; [|reflexivity]. intros _ m' Hm. discriminate Hm.
Qed.

(** X14: after a fetch that the API answers with the head version, whose
    selected file is among its entries, the mapping of the comparison is
    the single entry of that selected path, made of the normalized diffs
    of the answer and the MIME type of the entry, whatever was cached for
    the comparison before; and the page rendered from the resulting store
    shows the file tree of that version and the diff view of that entry,
    without the error paragraph. *)
Theorem fetchDiff_then_render
    (params : RouteParams.t) (s : VersionsState.t)
    (response : ExternalVersionWithDiff) (entry : VersionEntry.t) :
  let a := parseInt (RouteParams.addonId params) in
  let b := parseInt (RouteParams.baseVersionId params) in
  let h := parseInt (RouteParams.headVersionId params) in
  let selected :=
    PartialExternalVersionFile.selected_file
      (ExternalVersionFileWithDiff.partial (ExternalVersion.file response)) in
  (forall call : GetDiffParams.t, _getDiff call = VersionResponse response) ->
  ExternalVersion.id response = h ->
  find_entry (Version.entries (createInternalVersion (WithDiff response))) selected
    = Some entry ->
  exists s',
    snd (fetchDiff _getDiff (FetchDiffParams.mk a b h None) s) = Ok (tt, s')
    /\ getVersionInfo s' h = Some (Loaded (createInternalVersion (WithDiff response)))
    /\ getCompareInfoMap s' a b h
       = Some (Some {[ selected :=
                         CompareInfo.mk (createInternalDiffs b h response)
                           (VersionEntry.mimeType entry) ]})
    /\ render (mapStateToProps s' params)
       = ComparePage (Loaded (createInternalVersion (WithDiff response))) a false
           (DiffView (createInternalDiffs b h response)
              (VersionEntry.mimeType entry)).
Proof.
  intros a b h selected Hresp Hid Hentry.
  rewrite (fetchDiff_run _getDiff (FetchDiffParams.mk a b h None) s). cbv zeta.
  cbn [FetchDiffParams.addonId FetchDiffParams.baseVersionId
       FetchDiffParams.headVersionId FetchDiffParams.path].
  fold a b h. rewrite Hresp. cbn [snd].
  set (st := afterVersionInfo (afterBegin s a b h) response).
  assert (Hinfo : getVersionInfo st h
                  = Some (Loaded (createInternalVersion (WithDiff response)))).
  { unfold getVersionInfo, st, afterVersionInfo. cbn. rewrite Hid.
    apply lookup_insert_eq. }
  assert (Hst : getCompareInfoMap st a b h = Some (Some ∅)).
  { unfold getCompareInfoMap, st, afterVersionInfo, afterBegin. cbn.
    apply lookup_insert_eq. }
  destruct (loadDiff_merges st a b h response _ entry Hinfo Hentry)
    as (s' & Hred & Hmap & Hvi & _).
  rewrite Hst in Hmap. cbn [spread] in Hmap.
  exists s'. rewrite Hred.
  assert (Hinfo' : getVersionInfo s' h
                   = Some (Loaded (createInternalVersion (WithDiff response)))).
  { unfold getVersionInfo. rewrite Hvi. exact Hinfo. }
  split; [reflexivity|]. split; [exact Hinfo'|]. split; [exact Hmap|].
  unfold render, mapStateToProps. cbn [Props.version Props.compareInfoMap Props.addonId].
  fold a b h. rewrite Hinfo', Hmap. cbn [objectSelectedPath createInternalVersion
    Version.selectedPath any_file]. fold selected.
  erewrite get_own by apply lookup_insert_eq. reflexivity.
Qed.

(** X15: after a fetch that the API fails, the mapping of the comparison is
    null. The page rendered from the resulting store shows the error
    paragraph, next to the loading message of the diff pane, only if the
    head version was in the store before the fetch; if it was not, the
    page still shows the loading message of the version and no error. *)
Theorem failed_fetch_then_render
    (params : RouteParams.t) (s : VersionsState.t) (error : string) :
  let a := parseInt (RouteParams.addonId params) in
  let b := parseInt (RouteParams.baseVersionId params) in
  let h := parseInt (RouteParams.headVersionId params) in
  (forall call : GetDiffParams.t, _getDiff call = ErrorResponse error) ->
  exists s',
    snd (fetchDiff _getDiff (FetchDiffParams.mk a b h None) s) = Ok (tt, s')
    /\ getCompareInfoMap s' a b h = Some None
    /\ VersionsState.versionInfo s' = VersionsState.versionInfo s
    /\ render (mapStateToProps s' params)
       = match getVersionInfo s h with
         | None => LoadingVersion
         | Some version => ComparePage version a true LoadingDiff
         end.
Proof.
  intros a b h Hresp.
  rewrite (fetchDiff_run _getDiff (FetchDiffParams.mk a b h None) s). cbv zeta.
  cbn [FetchDiffParams.addonId FetchDiffParams.baseVersionId
       FetchDiffParams.headVersionId FetchDiffParams.path].
  fold a b h. rewrite Hresp. cbn [snd].
  eexists. split; [reflexivity|].
  assert (Hmap : getCompareInfoMap (afterAbort (afterBegin s a b h) a b h) a b h
                 = Some None).
  { unfold getCompareInfoMap, afterAbort. cbn. apply lookup_insert_eq. }
  split; [exact Hmap|]. split; [reflexivity|].
  unfold render, mapStateToProps. cbn [Props.version Props.compareInfoMap Props.addonId].
  fold a b h. rewrite Hmap.
  change (getVersionInfo (afterAbort (afterBegin s a b h) a b h) h)
    with (getVersionInfo s h).
  destruct (getVersionInfo s h); reflexivity.
Qed.

(** X16: when the API answers a fetch with a version whose id is not the
    requested head version id, and the head version is not in the store,
    the run of the thunk raises at the diff-loaded action, after the begin
    and version-info actions were dispatched; no abort action is
    dispatched. *)
Theorem fetchDiff_other_version_raises
    (p : FetchDiffParams.t) (s : VersionsState.t) (response : ExternalVersionWithDiff) :
  let a := FetchDiffParams.addonId p in
  let b := FetchDiffParams.baseVersionId p in
  let h := FetchDiffParams.headVersionId p in
  (forall call : GetDiffParams.t, _getDiff call = VersionResponse response) ->
  ExternalVersion.id response <> h ->
  getVersionInfo s h = None ->
  snd (fetchDiff _getDiff p s) = TypeError
  /\ exists call,
       fst (fetchDiff _getDiff p s) =
         [Dispatched (actions.beginFetchDiff a b h);
          GetDiffCalled call;
          Dispatched (actions.loadVersionInfo (WithDiff response));
          Dispatched (actions.loadDiff a b h response)].
Proof.
  intros a b h Hresp Hid Hinfo.
  rewrite fetchDiff_run. cbv zeta. fold a b h. rewrite Hresp.
  assert (Hnone : getVersionInfo (afterVersionInfo (afterBegin s a b h) response) h
                  = None).
  { unfold getVersionInfo, afterVersionInfo. cbn.
    rewrite lookup_insert_ne by exact Hid. exact Hinfo. }
  cbn [reducer]. rewrite Hnone. split; [reflexivity|]. eexists. reflexivity.
Qed.

(** X17: selecting a file that the mapping of the current comparison has
    (reading the mapping at its path finds an entry, or an inherited
    member) dispatches the selected-path action and nothing else: no
    begin action, no call of the API, and the diff cache is left as it
    was. *)
Theorem selectFile_cached_path_no_fetch
    (params : RouteParams.t) (path : string) (s : VersionsState.t) :
  let a := parseInt (RouteParams.addonId params) in
  let b := parseInt (RouteParams.baseVersionId params) in
  let h := parseInt (RouteParams.headVersionId params) in
  lacks_path (getCompareInfoMap s a b h) path = false ->
  onSelectFile (mapStateToProps s params) path
    = [store_dispatch (PlainAction (actions.updateSelectedPath path h))]
  /\ exists s',
       selectFile _getDiff params path s
       = ([Dispatched (actions.updateSelectedPath path h)], Ok (tt, s'))
       /\ reducer s (actions.updateSelectedPath path h) = Ok s'
       /\ VersionsState.diffsByPath s' = VersionsState.diffsByPath s.
Proof.
  intros a b h Hcached.
  assert (Hcmds : onSelectFile (mapStateToProps s params) path
                  = [store_dispatch (PlainAction (actions.updateSelectedPath path h))]).
  { unfold onSelectFile. cbn [mapStateToProps Props.compareInfoMap Props.params].
    fold a b h. rewrite Hcached. reflexivity. }
  split; [exact Hcmds|].
  eexists. split; [|split; reflexivity].
  unfold selectFile. rewrite Hcmds. reflexivity.
Qed.

(** X18: an update in which the add-on, the base or the head parameter
    differs from the previous one dispatches the fetch thunk made for the
    new parameters, parsed, and nothing else. An update never pushes to
    the router, whatever the order of base and head. *)
Theorem update_changed_tuple_fetches :
  (forall props prevProps : Props.t,
     RouteParams.addonId (Props.params props)
       <> RouteParams.addonId (Props.params prevProps)
     \/ RouteParams.baseVersionId (Props.params props)
          <> RouteParams.baseVersionId (Props.params prevProps)
     \/ RouteParams.headVersionId (Props.params props)
          <> RouteParams.headVersionId (Props.params prevProps) ->
     componentDidUpdate props prevProps =
       [store_dispatch
          (FetchDiffThunk
             (FetchDiffParams.mk
                (parseInt (RouteParams.addonId (Props.params props)))
                (parseInt (RouteParams.baseVersionId (Props.params props)))
                (parseInt (RouteParams.headVersionId (Props.params props)))
                None))])
  /\ (forall (props prevProps : Props.t) (url : string),
        history_push url ∉ componentDidUpdate props prevProps).
Proof.
  split.
  - intros props prevProps Hchanged. unfold componentDidUpdate, loadData.
    destruct Hchanged as [Hne|[Hne|Hne]].
    + rewrite (bool_decide_eq_true_2 _ Hne). reflexivity.
    + rewrite (bool_decide_eq_true_2 _ Hne), orb_true_r. reflexivity.
    + rewrite (bool_decide_eq_true_2 _ Hne), orb_true_r. reflexivity.
  - intros props prevProps url Hin. unfold componentDidUpdate, loadData in Hin.
    match type of Hin with
    | _ ∈ (if ?c then _ else _) => destruct c
    end.
    + apply list_elem_of_singleton in Hin. discriminate Hin.
    + inversion Hin.
Qed.

End PageMore.

Section PageMoreChecks.

(** The page is mounted on 9999/1/2 over the empty store and the API
    answers with version 2, whose selected file is manifest.json. *)
Lemma fetchDiff_then_render_witness :
  exists s',
    snd (fetchDiff Sample.getDiff_ok
           (FetchDiffParams.mk (Num 9999) (Num 1) (Num 2) None) initialState)
    = Ok (tt, s')
    /\ getCompareInfoMap s' (Num 9999) (Num 1) (Num 2)
       = Some (Some {[ "manifest.json" := Sample.info "manifest.json" ]})
    /\ render (mapStateToProps s' Sample.params_9999_1_2)
       = ComparePage
           (Loaded (createInternalVersion
                      (WithDiff (Sample.versionWithDiff 2 ["manifest.json"]
                                   "manifest.json"))))
           (Num 9999) false
           (DiffView (CompareInfo.diffs (Sample.info "manifest.json"))
              "application/json").
Proof.
  destruct (fetchDiff_then_render Sample.getDiff_ok Sample.params_9999_1_2
              initialState
              (Sample.versionWithDiff 2 ["manifest.json"] "manifest.json")
              (createInternalVersionEntry (Sample.entry "manifest.json"))
              (fun _ => eq_refl) eq_refl eq_refl)
    as (s' & Hrun & _ & Hmap & Hrender).
  exists s'. split; [exact Hrun|]. split; [exact Hmap|exact Hrender].
Defined.

(** The same mount when the API fails: the mapping is null and the page
    still shows the loading message of the version. *)
Lemma failed_fetch_then_render_witness :
  exists s',
    snd (fetchDiff Sample.getDiff_error
           (FetchDiffParams.mk (Num 9999) (Num 1) (Num 2) None) initialState)
    = Ok (tt, s')
    /\ getCompareInfoMap s' (Num 9999) (Num 1) (Num 2) = Some None
    /\ render (mapStateToProps s' Sample.params_9999_1_2) = LoadingVersion.
Proof.
  destruct (failed_fetch_then_render Sample.getDiff_error Sample.params_9999_1_2
              initialState "500" (fun _ => eq_refl))
    as (s' & Hrun & Hmap & _ & Hrender).
  exists s'. split; [exact Hrun|]. split; [exact Hmap|exact Hrender].
Defined.

(** The head version 2 is requested over the empty store and the API
    answers with version 123. *)
Lemma fetchDiff_other_version_raises_witness :
  snd (fetchDiff SampleApi.getDiff_123
         (FetchDiffParams.mk (Num 9999) (Num 1) (Num 2) None) initialState)
  = TypeError.
Proof.
  exact (proj1 (fetchDiff_other_version_raises SampleApi.getDiff_123
                  (FetchDiffParams.mk (Num 9999) (Num 1) (Num 2) None) initialState
                  (Sample.versionWithDiff 123 ["manifest.json"] "manifest.json")
                  (fun _ => eq_refl) ltac:(discriminate) eq_refl)).
Defined.

(** The diff of a.js is cached for 9999/1/2 and a.js is selected. *)
Lemma selectFile_cached_path_no_fetch_witness :
  lacks_path (getCompareInfoMap Sample.storeABC (Num 9999) (Num 1) (Num 2)) "a.js"
  = false
  /\ onSelectFile (mapStateToProps Sample.storeABC Sample.params_9999_1_2) "a.js"
     = [store_dispatch (PlainAction (actions.updateSelectedPath "a.js" (Num 2)))].
Proof.
  assert (Hcached :
    lacks_path (getCompareInfoMap Sample.storeABC (Num 9999) (Num 1) (Num 2)) "a.js"
    = false) by reflexivity.
  split; [exact Hcached|].
  exact (proj1 (selectFile_cached_path_no_fetch Sample.getDiff_ok
                  Sample.params_9999_1_2 "a.js" Sample.storeABC Hcached)).
Defined.

(** The base version changes from 9 to 10 on a mounted page. *)
Lemma update_changed_tuple_fetches_witness :
  componentDidUpdate
    (mapStateToProps initialState (RouteParams.mk "123456" "10" "11" "fr"))
    (mapStateToProps initialState (RouteParams.mk "123456" "9" "11" "fr"))
  = [store_dispatch
       (FetchDiffThunk (FetchDiffParams.mk (Num 123456) (Num 10) (Num 11) None))].
Proof.
  apply (proj1 update_changed_tuple_fetches
           (mapStateToProps initialState (RouteParams.mk "123456" "10" "11" "fr"))
           (mapStateToProps initialState (RouteParams.mk "123456" "9" "11" "fr"))).
  right. left. discriminate.
Defined.

End PageMoreChecks.

(** ** The shape of the normalized diffs *)

Section DiffShape.

(** X19: [createInternalDiffs] keeps the structure of the payload: it
    returns one diff per raw diff, in order, each with the head and base
    ids rendered as new and old revision, the raw path, old path and mode,
    and one hunk per raw hunk; each hunk has one change per raw change,
    in order and with its content, line numbers and kind, and of the three
    flags of a change exactly the one of its kind is set. *)
Theorem createInternalDiffs_shape
    (b h : number) (version : ExternalVersionWithDiff) :
  let raws := ExternalVersionFileWithDiff.diff (ExternalVersion.file version) in
  List.length (createInternalDiffs b h version) = List.length raws
  /\ (forall (i : nat) (raw : ExternalDiff.t),
        raws !! i = Some raw ->
        exists d,
          createInternalDiffs b h version !! i = Some d
          /\ DiffInfo.newRevision d = Js.to_string h
          /\ DiffInfo.oldRevision d = Js.to_string b
          /\ DiffInfo.newPath d = ExternalDiff.path raw
          /\ DiffInfo.oldPath d = ExternalDiff.old_path raw
          /\ DiffInfo.newMode d = ExternalDiff.mode raw
          /\ DiffInfo.oldMode d = ExternalDiff.mode raw
          /\ List.length (DiffInfo.hunks d) = List.length (ExternalDiff.hunks raw)
          /\ forall (j : nat) (rawHunk : ExternalHunk.t),
               ExternalDiff.hunks raw !! j = Some rawHunk ->
               exists hunk,
                 DiffInfo.hunks d !! j = Some hunk
                 /\ Hunk.content hunk = ExternalHunk.header rawHunk
                 /\ map (fun c => (Change.content c, Change.newLineNumber c,
                                   Change.oldLineNumber c, Change.type c))
                      (Hunk.changes hunk)
                    = map (fun c => (ExternalChange.content c,
                                     ExternalChange.new_line_number c,
                                     ExternalChange.old_line_number c,
                                     ExternalChange.type c))
                        (ExternalHunk.changes rawHunk)
                 /\ Forall
                      (fun c =>
                         (Change.isDelete c, Change.isInsert c, Change.isNormal c)
                         = match Change.type c with
                           | delete => (true, false, false)
                           | insert => (false, true, false)
                           | normal => (false, false, true)
                           end)
                      (Hunk.changes hunk)).
Proof.
  cbv zeta. unfold createInternalDiffs. split; [apply length_map|].
  intros i raw Hraw. eexists. split.
  { rewrite list_lookup_fmap, Hraw. reflexivity. }
  repeat split.
  - cbn. apply length_map.
  - intros j rawHunk Hhunk. eexists. split.
    { cbn. rewrite list_lookup_fmap, Hhunk. reflexivity. }
    repeat split.
    + cbn. rewrite map_map. reflexivity.
    + cbn. apply Forall_map. apply Forall_forall. intros c _.
      cbn. destruct (ExternalChange.type c); reflexivity.
Qed.

End DiffShape.

(** ** Selectors and payloads: what is read and what is ignored *)

Section Reads.

(** X20: [getVersionFile] answers an object only for a loaded version and
    for a path that is the path of one of its entries. When a file of that
    version is stored under the path, the object carries the content,
    creation date, id and size of the stored file, the name, MIME type,
    hash and type of that entry and the version string of the version.
    When none is stored, it answers undefined, unless the path is the
    name of a member inherited from Object.prototype: then the object has
    the fields of the entry and the version string and no content. It
    never raises for a loaded version or for an unknown one. *)
Theorem getVersionFile_sound
    (s : VersionsState.t) (versionId : VersionId) (path : string) :
  (forall f : VersionFile.t,
     getVersionFile s versionId path = Ok (Some f) ->
     exists (v : Version.t) (entry : VersionEntry.t)
            (files : gmap string InternalVersionFile.t),
       getVersionInfo s versionId = Some (Loaded v)
       /\ entry ∈ Version.entries v
       /\ VersionEntry.path entry = path
       /\ getVersionFiles s versionId = Some files
       /\ ((exists file : InternalVersionFile.t,
              files !! path = Some file
              /\ f = VersionFile.mk
                       (InternalVersionFile.content file)
                       (InternalVersionFile.created file)
                       (VersionEntry.filename entry) (InternalVersionFile.id file)
                       (VersionEntry.mimeType entry) (VersionEntry.sha256 entry)
                       (InternalVersionFile.size file) (VersionEntry.type entry)
                       (Version.version v))
           \/ (files !! path = None
               /\ path ∈ Js.Object_prototype_members
               /\ f = VersionFile.ofEntryOnly
                        (VersionEntry.filename entry) (VersionEntry.mimeType entry)
                        (VersionEntry.sha256 entry) (VersionEntry.type entry)
                        (Version.version v))))
  /\ (forall (v : Version.t) (files : gmap string InternalVersionFile.t),
        getVersionInfo s versionId = Some (Loaded v) ->
        getVersionFiles s versionId = Some files ->
        files !! path = None ->
        path ∉ Js.Object_prototype_members ->
        getVersionFile s versionId path = Ok None)
  /\ (getVersionFile s versionId path = TypeError ->
      exists selectedPath,
        getVersionInfo s versionId = Some (SelectedPathOnly selectedPath)
        /\ is_Some (getVersionFiles s versionId)).
Proof.
  unfold getVersionFile. split; [|split].
  - intros f Hf.
    destruct (getVersionInfo s versionId) as [[v|sel]|]; try discriminate Hf.
    2: { destruct (getVersionFiles s versionId); discriminate Hf. }
    destruct (getVersionFiles s versionId) as [files|]; [|discriminate Hf].
    destruct (find_entry (Version.entries v) path) as [entry|] eqn:Hentry;
      [|discriminate Hf].
    apply find_some in Hentry as [Hin Hpath].
    apply list_elem_of_In in Hin. apply bool_decide_eq_true in Hpath.
    exists v, entry, files.
    split; [reflexivity|]. split; [exact Hin|]. split; [exact Hpath|].
    split; [reflexivity|].
    unfold Js.get in Hf. destruct (files !! path) as [file|] eqn:Hfile.
    + left. exists file. split; [reflexivity|]. injection Hf as <-. reflexivity.
    + right. case_bool_decide as Hproto; [|discriminate Hf].
      split; [reflexivity|]. split; [exact Hproto|].
      injection Hf as <-. reflexivity.
  - intros v files -> -> Hnone Hproto.
    rewrite (get_absent files path Hnone Hproto).
    destruct (find_entry _ _); reflexivity.
  - intros Hraise.
    destruct (getVersionInfo s versionId) as [[v|sel]|]; try discriminate Hraise.
    + destruct (getVersionFiles s versionId) as [files|]; [|discriminate Hraise].
      destruct (find_entry _ _); [|discriminate Hraise].
      destruct (Js.get files path); discriminate Hraise.
    + destruct (getVersionFiles s versionId) as [files|]; [|discriminate Hraise].
      exists sel. split; [reflexivity|]. eexists; reflexivity.
Qed.

(** X21: the diff-loaded action reads the payload only for its raw diffs.
    The path under which the result is filed and its MIME type come from
    the head version in the store, so two payloads with the same raw diffs
    give the same state, whatever their ids, entries and selected files. *)
Theorem loadDiff_reads_only_diffs
    (s : VersionsState.t) (a b h : number) (version version' : ExternalVersionWithDiff) :
  ExternalVersionFileWithDiff.diff (ExternalVersion.file version)
    = ExternalVersionFileWithDiff.diff (ExternalVersion.file version') ->
  reducer s (actions.loadDiff a b h version)
  = reducer s (actions.loadDiff a b h version').
Proof.
  intros Hdiff. cbn. unfold createInternalDiffs. rewrite Hdiff. reflexivity.
Qed.

Lemma loadDiff_reads_only_diffs_witness :
  reducer Sample.storeABC
    (actions.loadDiff (Num 9999) (Num 1) (Num 2)
       (Sample.versionWithDiff 2 ["c.js"] "c.js"))
  = reducer Sample.storeABC
      (actions.loadDiff (Num 9999) (Num 1) (Num 2)
         (ExternalVersion.mk Sample.addon (Num 77) "2020-02-02" "9.9"
            (ExternalVersionFileWithDiff.mk (Sample.partialFile ["x.js"] "x.js")
               [Sample.diff "c.js"]))).
Proof.
  apply loadDiff_reads_only_diffs. reflexivity.
Defined.

(** X22: route parameters are not validated. When the base or the head
    parameter holds no leading integer, the comparison of the two ids is
    false, so mounting issues no redirect and dispatches the fetch thunk
    with the ids as parsed, the unparsable ones being NaN. *)
Theorem mount_unparsable_ids_fetches (props : Props.t) :
  let params := Props.params props in
  parseInt (RouteParams.baseVersionId params) = NaN
  \/ parseInt (RouteParams.headVersionId params) = NaN ->
  componentDidMount props =
    [store_dispatch
       (FetchDiffThunk
          (FetchDiffParams.mk
             (parseInt (RouteParams.addonId params))
             (parseInt (RouteParams.baseVersionId params))
             (parseInt (RouteParams.headVersionId params)) None))].
Proof.
  cbv zeta. intros Hnan. apply componentDidMount_fetches.
  destruct Hnan as [-> | ->]; [reflexivity|].
  destruct (parseInt (RouteParams.baseVersionId (Props.params props))); reflexivity.
Qed.

Lemma mount_unparsable_ids_fetches_witness :
  parseInt "latest" = NaN
  /\ componentDidMount
       (mapStateToProps initialState (RouteParams.mk "9999" "latest" "2" "fr"))
     = [store_dispatch
          (FetchDiffThunk (FetchDiffParams.mk (Num 9999) NaN (Num 2) None))].
Proof.
  split; [reflexivity|].
  apply (mount_unparsable_ids_fetches
           (mapStateToProps initialState (RouteParams.mk "9999" "latest" "2" "fr"))).
  left. reflexivity.
Defined.

End Reads.
